(** * best-of-both-tabs: the background page ([background-main.js])

    A shallow embedding of the tab-pairing store [MobileDesktopPairings] and
    of the event listeners of the background page, followed by the
    properties of the specification that were checked against them.

    JavaScript values are kept as a small inductive type; the two plain
    objects the class uses as dictionaries are finite maps from property
    keys (strings) to values, read through the prototype chain; methods are
    computations in a state-and-exception monad over the receiver. *)

From Stdlib Require Import ZArith Ascii String List Bool.
From stdpp Require Import base option strings pretty gmap.

Local Open Scope Z_scope.
Local Open Scope string_scope.

(** ** JavaScript values *)

Module JS.

(** The values the background page handles.  Numbers are the integers, [NaN]
    and the two infinities (finite fractions never reach this code: tab and
    window ids are integers, and no arithmetic is done on them).  [VBuiltin]
    is a built-in object or function found on [Object.prototype]. *)
Inductive value : Type :=
| VUndefined
| VNull
| VBool (b : bool)
| VInt (n : Z)
| VNaN
| VInfinity (negative : bool)
| VString (s : string)
| VBuiltin (name : string).

#[global] Instance value_eq_dec : EqDecision value.
Proof. solve_decision. Defined.

(** ToBoolean. *)
Definition truthy (v : value) : bool :=
  match v with
  | VUndefined | VNull | VNaN => false
  | VBool b => b
  | VInt n => negb (Z.eqb n 0)
  | VInfinity _ => true
  | VString s => negb (String.eqb s "")
  | VBuiltin _ => true
  end.

(** [!v], [a || b] and [a && b]: the last two return one of their operands. *)
Definition logical_not (v : value) : value := VBool (negb (truthy v)).
Definition logical_or (a b : value) : value := if truthy a then a else b.
Definition logical_and (a b : value) : value := if truthy a then b else a.

(** [a === b]. *)
Definition strict_eq (a b : value) : bool :=
  match a, b with
  | VNaN, _ | _, VNaN => false
  | _, _ => bool_decide (a = b)
  end.

(** [Number.isInteger(v)]. *)
Definition isInteger (v : value) : bool :=
  match v with
  | VInt _ => true
  | _ => false
  end.

(** ToPropertyKey: the string under which [o[v]] reads and writes.  An
    integer is written in decimal, as JavaScript writes every integer below
    10^21 in absolute value; both zeros are written [0]. *)
Definition toPropertyKey (v : value) : string :=
  match v with
  | VUndefined => "undefined"
  | VNull => "null"
  | VBool true => "true"
  | VBool false => "false"
  | VInt n => pretty n
  | VNaN => "NaN"
  | VInfinity false => "Infinity"
  | VInfinity true => "-Infinity"
  | VString s => s
  | VBuiltin name =>
      if String.eqb name "__proto__" then "[object Object]"
      else "function " ++ name ++ "() { [native code] }"
  end.

(** The own properties of a plain object created by [{}]. *)
Abbreviation object := (gmap string value).

(** The property names every plain object inherits from [Object.prototype]. *)
Definition objectPrototype : list string :=
  [ "constructor"; "__defineGetter__"; "__defineSetter__"; "hasOwnProperty";
    "__lookupGetter__"; "__lookupSetter__"; "isPrototypeOf";
    "propertyIsEnumerable"; "toString"; "valueOf"; "__proto__";
    "toLocaleString" ].

Definition inherited (k : string) : bool :=
  existsb (String.eqb k) objectPrototype.

(** [o[v]] as an expression: own property first, then the prototype. *)
Definition get (o : object) (v : value) : value :=
  match o !! toPropertyKey v with
  | Some x => x
  | None =>
      if inherited (toPropertyKey v) then VBuiltin (toPropertyKey v)
      else VUndefined
  end.

(** [o[v] = x] and [delete o[v]]. *)
Definition set (o : object) (v x : value) : object := <[toPropertyKey v := x]> o.
Definition del (o : object) (v : value) : object := delete (toPropertyKey v) o.

(** A thrown [Error]. *)
Inductive exn : Type :=
| Error (message : string).

End JS.

Import JS.

(** ** Computations that read and write a state and may throw *)

Inductive outcome (S A : Type) : Type :=
| Return (a : A) (s : S)
| Throw (e : exn) (s : S).
Arguments Return {S A} a s.
Arguments Throw {S A} e s.

Definition Eff (S A : Type) : Type := S -> outcome S A.

Definition ret {S A} (a : A) : Eff S A := fun s => Return a s.
Definition throw {S A} (e : exn) : Eff S A := fun s => Throw e s.
Definition bind {S A B} (c : Eff S A) (k : A -> Eff S B) : Eff S B :=
  fun s =>
    match c s with
    | Return a s' => k a s'
    | Throw e s' => Throw e s'
    end.
Definition gets {S A} (f : S -> A) : Eff S A := fun s => Return (f s) s.
Definition modify {S} (f : S -> S) : Eff S unit := fun s => Return tt (f s).

Notation "x <- c ;; k" := (bind c (fun x => k))
  (at level 100, c at next level, right associativity).
Notation "c ;; k" := (bind c (fun _ => k))
  (at level 100, right associativity).

(** The state an outcome ends in, thrown or not. *)
Definition final {S A} (o : outcome S A) : S :=
  match o with
  | Return _ s => s
  | Throw _ s => s
  end.

(** ** The pairing store: [class MobileDesktopPairings] *)

Record MobileDesktopPairings : Type := {
  _keyedByDesktop : object;
  _keyedByMobile : object
}.

Definition set_keyedByDesktop (o : object) (this : MobileDesktopPairings) :=
  {| _keyedByDesktop := o; _keyedByMobile := _keyedByMobile this |}.
Definition set_keyedByMobile (o : object) (this : MobileDesktopPairings) :=
  {| _keyedByDesktop := _keyedByDesktop this; _keyedByMobile := o |}.

(** [constructor()]. *)
Definition constructor : MobileDesktopPairings :=
  {| _keyedByDesktop := ∅; _keyedByMobile := ∅ |}.

Definition addPair (desktopTabId mobileTabId : value)
  : Eff MobileDesktopPairings unit :=
  if negb (isInteger desktopTabId) || negb (isInteger mobileTabId) then
    throw (Error "Tried to insert non-integer into MobileDesktopPairings")
  else
    modify (fun this =>
      set_keyedByDesktop (set (_keyedByDesktop this) desktopTabId mobileTabId) this) ;;
    modify (fun this =>
      set_keyedByMobile (set (_keyedByMobile this) mobileTabId desktopTabId) this).

Definition getCorrespondingTab (tabId : value)
  : Eff MobileDesktopPairings value :=
  if negb (isInteger tabId) then
    throw (Error "Given Tab Id is not an integer")
  else
    gets (fun this =>
      logical_or (logical_or (get (_keyedByDesktop this) tabId)
                   (get (_keyedByMobile this) tabId))
            (VBool false)).

Definition contains (tabId : value) : Eff MobileDesktopPairings value :=
  if negb (isInteger tabId) then
    throw (Error "Given Tab Id is not an integer")
  else
    t <- getCorrespondingTab tabId ;;
    ret (logical_not (logical_not t)).

Definition removeTabPair (eitherTabId : value)
  : Eff MobileDesktopPairings unit :=
  if negb (isInteger eitherTabId) then
    throw (Error "Given Tab Id is not an integer")
  else
    modify (fun this =>
      set_keyedByDesktop (del (_keyedByDesktop this) eitherTabId) this) ;;
    modify (fun this =>
      set_keyedByMobile (del (_keyedByMobile this) eitherTabId) this).

Definition clearPairings : Eff MobileDesktopPairings unit :=
  modify (set_keyedByDesktop ∅) ;;
  modify (set_keyedByMobile ∅).

Definition isDesktopTab (tabId : value) : Eff MobileDesktopPairings value :=
  gets (fun this => logical_not (logical_not (get (_keyedByDesktop this) tabId))).

(** The two errors of the store are what the specification calls
    [InvalidIdentifier]. *)
Definition InvalidIdentifier (e : exn) : Prop :=
  e = Error "Tried to insert non-integer into MobileDesktopPairings"
  \/ e = Error "Given Tab Id is not an integer".

(** ** The background page: its variables and the calls it makes *)

(** [o.field] for an object received from the browser (a tab, a change
    record, a message, a request header). *)
Notation "o .[ field ]" := (get o (VString field))
  (at level 1, left associativity, format "o .[ field ]").

(** Which listener of [chrome.tabs.onCreated] started a mirror creation: the
    branch for a tab opened in the desktop window, or the one for a tab
    opened in the mobile window. *)
Inductive origin : Type :=
| FromDesktop
| FromMobile.

(** The two nested callbacks of the [onCreated] listener, with the variables
    they close over. *)
Inductive callback : Type :=
| created (from : origin) (newUserTab : object) (newTabUrl : value)
| updated (from : origin) (newUserTab newProgrammaticTab : object).

(** The second argument of [chrome.tabs.update]. *)
Inductive updateProperties : Type :=
| url_is (url : value)
| selected_is (selected : bool).

(** A call on the browser's API (or on the console). *)
Inductive call : Type :=
| tabs_create (windowId : value) (cb : callback)
| tabs_update (tabId : value) (props : updateProperties) (cb : option callback)
| tabs_remove (tabId : value)
| tabs_sendMessage (tabId : value) (message : object)
| console_log (text : string).

(** The variables of the closure, and the calls made so far, oldest first. *)
Record background : Type := {
  tabPairs : MobileDesktopPairings;
  desktopWindowId : value;
  mobileWindowId : value;
  newTabBeingCreated : bool;
  focusedWindowId : value;
  issued : list call
}.

Definition set_tabPairs (p : MobileDesktopPairings) (w : background) :=
  {| tabPairs := p; desktopWindowId := desktopWindowId w;
     mobileWindowId := mobileWindowId w;
     newTabBeingCreated := newTabBeingCreated w;
     focusedWindowId := focusedWindowId w; issued := issued w |}.
Definition set_desktopWindowId (v : value) (w : background) :=
  {| tabPairs := tabPairs w; desktopWindowId := v;
     mobileWindowId := mobileWindowId w;
     newTabBeingCreated := newTabBeingCreated w;
     focusedWindowId := focusedWindowId w; issued := issued w |}.
Definition set_mobileWindowId (v : value) (w : background) :=
  {| tabPairs := tabPairs w; desktopWindowId := desktopWindowId w;
     mobileWindowId := v;
     newTabBeingCreated := newTabBeingCreated w;
     focusedWindowId := focusedWindowId w; issued := issued w |}.
Definition set_newTabBeingCreated (b : bool) (w : background) :=
  {| tabPairs := tabPairs w; desktopWindowId := desktopWindowId w;
     mobileWindowId := mobileWindowId w;
     newTabBeingCreated := b;
     focusedWindowId := focusedWindowId w; issued := issued w |}.
Definition set_focusedWindowId (v : value) (w : background) :=
  {| tabPairs := tabPairs w; desktopWindowId := desktopWindowId w;
     mobileWindowId := mobileWindowId w;
     newTabBeingCreated := newTabBeingCreated w;
     focusedWindowId := v; issued := issued w |}.
Definition set_issued (l : list call) (w : background) :=
  {| tabPairs := tabPairs w; desktopWindowId := desktopWindowId w;
     mobileWindowId := mobileWindowId w;
     newTabBeingCreated := newTabBeingCreated w;
     focusedWindowId := focusedWindowId w; issued := l |}.

(** The page as it is loaded: lines 70 to 80. *)
Definition loaded : background :=
  {| tabPairs := constructor; desktopWindowId := VUndefined;
     mobileWindowId := VUndefined; newTabBeingCreated := false;
     focusedWindowId := VUndefined; issued := [] |}.

(** A method call on [tabPairs]. *)
Definition on_tabPairs {A} (m : Eff MobileDesktopPairings A) : Eff background A :=
  fun w =>
    match m (tabPairs w) with
    | Return a p => Return a (set_tabPairs p w)
    | Throw e p => Throw e (set_tabPairs p w)
    end.

(** A call on [chrome] or [console]. *)
Definition chrome (c : call) : Eff background unit :=
  modify (fun w => set_issued (issued w ++ [c]) w).

(** The calls a computation adds when it is run from [w]. *)
Definition calls_of {A} (m : Eff background A) (w : background) : list call :=
  drop (length (issued w)) (issued (final (m w))).

(** What the page reads from the extension's other scripts:
    [chrome.extension.getBackgroundPage()]. *)
Record backgroundPage : Type := {
  getDevice : object;
  getStartSession : value;
  getScrollLock : value
}.

(** *** [chrome.tabs.onCreated] *)

Definition tabs_onCreated (newUserTab : object) : Eff background unit :=
  let newTabUrl := newUserTab.["url"] in
  creating <- gets newTabBeingCreated ;;
  desktop <- gets desktopWindowId ;;
  mobile <- gets mobileWindowId ;;
  if negb creating && strict_eq newUserTab.["windowId"] desktop then
    modify (set_newTabBeingCreated true) ;;
    chrome (tabs_create mobile (created FromDesktop newUserTab newTabUrl))
  else if negb creating && strict_eq newUserTab.["windowId"] mobile then
    modify (set_newTabBeingCreated true) ;;
    chrome (tabs_create desktop (created FromMobile newUserTab newTabUrl))
  else
    ret tt.

(** The browser answers a call by running its callback on the tab it made
    or changed. *)
Definition run_callback (cb : callback) (answer : object) : Eff background unit :=
  match cb with
  | created from newUserTab newTabUrl =>
      let newProgrammaticTab := answer in
      chrome (tabs_update newProgrammaticTab.["id"] (url_is newTabUrl)
                (Some (updated from newUserTab newProgrammaticTab)))
  | updated FromDesktop newUserTab newProgrammaticTab =>
      on_tabPairs (addPair newUserTab.["id"] newProgrammaticTab.["id"]) ;;
      modify (set_newTabBeingCreated false)
  | updated FromMobile newUserTab newProgrammaticTab =>
      on_tabPairs (addPair newProgrammaticTab.["id"] newUserTab.["id"]) ;;
      modify (set_newTabBeingCreated false)
  end.

(** *** [chrome.tabs.onRemoved], [onActivated], [windows.onFocusChanged] *)

Definition tabs_onRemoved (removedTabId : value) : Eff background unit :=
  correspondingTab <- on_tabPairs (getCorrespondingTab removedTabId) ;;
  if truthy correspondingTab then
    on_tabPairs (removeTabPair removedTabId) ;;
    chrome (tabs_remove correspondingTab)
  else
    ret tt.

Definition tabs_onActivated (activeInfo : object) : Eff background unit :=
  correspondingTab <- on_tabPairs (getCorrespondingTab activeInfo.["tabId"]) ;;
  desktop <- gets desktopWindowId ;;
  mobile <- gets mobileWindowId ;;
  if truthy correspondingTab
     && (strict_eq activeInfo.["windowId"] desktop
         || strict_eq activeInfo.["windowId"] mobile) then
    chrome (tabs_update correspondingTab (selected_is true) None)
  else
    ret tt.

Definition windows_onFocusChanged (newFocusedWindowId : value)
  : Eff background unit :=
  modify (set_focusedWindowId newFocusedWindowId).

(** *** [chrome.tabs.onUpdated] *)

Definition tabs_onUpdated (tabId : value) (changeInfo tab : object)
  : Eff background unit :=
  correspondingTab <- on_tabPairs (getCorrespondingTab tabId) ;;
  focused <- gets focusedWindowId ;;
  if truthy (logical_and (logical_and changeInfo.["url"] correspondingTab)
                    (VBool (strict_eq tab.["windowId"] focused))) then
    chrome (tabs_update correspondingTab (url_is changeInfo.["url"]) None)
  else
    ret tt.

(** *** [chrome.windows.onRemoved] *)

Definition windows_onRemoved (windowId : value) : Eff background unit :=
  mobile <- gets mobileWindowId ;;
  if strict_eq windowId mobile then
    on_tabPairs clearPairings ;;
    modify (set_desktopWindowId VUndefined) ;;
    modify (set_mobileWindowId VUndefined) ;;
    modify (set_newTabBeingCreated false) ;;
    modify (set_focusedWindowId VUndefined)
  else
    ret tt.

(** *** [chrome.runtime.onMessage] *)

Definition runtime_onMessage (page : backgroundPage) (message sender_tab : object)
  : Eff background unit :=
  correspondingTabId <- on_tabPairs (getCorrespondingTab sender_tab.["id"]) ;;
  let scrollLock := getScrollLock page in
  if truthy (logical_and
               (logical_not (logical_and message.["scrollPercentage"]
                               (VBool (negb (strict_eq scrollLock (VString "on"))))))
               correspondingTabId) then
    chrome (tabs_sendMessage correspondingTabId message)
  else
    chrome (console_log
      "Error relaying message: No corresponding tab to receive messsage").

(** *** [chrome.webRequest.onBeforeSendHeaders] *)

(** The [for] loop of lines 221 to 227: the first header named [User-Agent]
    gets the device's user agent as its value, and the loop stops there. *)
Fixpoint replaceUserAgent (page : backgroundPage) (headers : list object)
  : list object :=
  match headers with
  | [] => []
  | h :: rest =>
      if strict_eq h.["name"] (VString "User-Agent") then
        let device := getDevice page in
        set h (VString "value") device.["ua"] :: rest
      else
        h :: replaceUserAgent page rest
  end.

(** The listener returns [{requestHeaders: headers}]; this is [headers]. *)
Definition webRequest_onBeforeSendHeaders (page : backgroundPage)
    (details_tabId : value) (details_requestHeaders : list object)
  : Eff background (list object) :=
  let headers := details_requestHeaders in
  known <- on_tabPairs (contains details_tabId) ;;
  isMobilePage <-
    (if truthy known then
       desktop <- on_tabPairs (isDesktopTab details_tabId) ;;
       ret (logical_not desktop)
     else
       ret known) ;;
  if truthy isMobilePage then
    ret (replaceUserAgent page headers)
  else
    ret headers.

(** ** Property keys of integers *)

(** A property key that starts with a digit or a minus sign. *)
Definition numeric_head (k : string) : bool :=
  match k with
  | String c _ =>
      existsb (Ascii.eqb c)
        ["0"; "1"; "2"; "3"; "4"; "5"; "6"; "7"; "8"; "9"; "-"]%char
  | EmptyString => false
  end.

(** ** The properties claimed of the pairing store *)

(** What the specification promises of [addPair(a, b)] run on [this]. *)
Definition addPair_pairs (this : MobileDesktopPairings) (a b : Z) : Prop :=
  let this' := final (addPair (VInt a) (VInt b) this) in
  getCorrespondingTab (VInt a) this' = Return (VInt b) this'
  /\ getCorrespondingTab (VInt b) this' = Return (VInt a) this'
  /\ contains (VInt a) this' = Return (VBool true) this'
  /\ contains (VInt b) this' = Return (VBool true) this'.

(** The pair (desktop tab [d], mobile tab [m]) is recorded in [this], in one
    direction or the other. *)
Definition recorded (this : MobileDesktopPairings) (d m : Z) : Prop :=
  get (_keyedByDesktop this) (VInt d) = VInt m
  \/ get (_keyedByMobile this) (VInt m) = VInt d.

(** Each identifier appears in at most one recorded pair. *)
Definition one_to_one (this : MobileDesktopPairings) : Prop :=
  forall x d1 m1 d2 m2,
    recorded this d1 m1 -> recorded this d2 m2 ->
    x = d1 \/ x = m1 -> x = d2 \/ x = m2 ->
    d1 = d2 /\ m1 = m2.

(** The identifier [x] is a key or a stored value of the object [o]. *)
Definition mentions (o : object) (x : Z) : bool :=
  bool_decide (is_Some (o !! toPropertyKey (VInt x)))
  || bool_decide (VInt x ∈ (map_to_list o).*2).

(** The identifier [x] appears nowhere in the store. *)
Definition unused (this : MobileDesktopPairings) (x : Z) : bool :=
  negb (mentions (_keyedByDesktop this) x)
  && negb (mentions (_keyedByMobile this) x).

(** The mutators of the store, as data. *)
Inductive operation : Type :=
| AddPair (desktopTabId mobileTabId : value)
| RemoveTabPair (eitherTabId : value)
| ClearPairings.

Definition perform (op : operation) : Eff MobileDesktopPairings unit :=
  match op with
  | AddPair d m => addPair d m
  | RemoveTabPair x => removeTabPair x
  | ClearPairings => clearPairings
  end.

(** The store a call leaves behind, whether it returned or threw. *)
Definition after (op : operation) (this : MobileDesktopPairings)
  : MobileDesktopPairings :=
  final (perform op this).

(** The stores reachable from a new one by any sequence of mutator calls. *)
Inductive reachable : MobileDesktopPairings -> Prop :=
| reachable_new : reachable constructor
| reachable_call op this : reachable this -> reachable (after op this).

(** A call that pairs only identifiers that appear nowhere in the store. *)
Definition pairs_unused (this : MobileDesktopPairings) (op : operation) : bool :=
  match op with
  | AddPair (VInt a) (VInt b) => unused this a && unused this b
  | _ => true
  end.

(** The stores reachable when every [addPair] pairs unused identifiers, as
    the listeners do: each pairs two tabs the browser has just made. *)
Inductive reachable_unused : MobileDesktopPairings -> Prop :=
| reachable_unused_new : reachable_unused constructor
| reachable_unused_call op this :
    reachable_unused this -> pairs_unused this op = true ->
    reachable_unused (after op this).

(** The request comes from a tab known to the store that is not a desktop
    tab: the test of line 219. *)
Definition isMobilePage (this : MobileDesktopPairings) (tabId : value) : Prop :=
  contains tabId this = Return (VBool true) this
  /\ isDesktopTab tabId this = Return (VBool false) this.

(** The tab has a pair in the store. *)
Definition has_pair (this : MobileDesktopPairings) (tabId : value) : Prop :=
  contains tabId this = Return (VBool true) this.

(** The key under which [o[v]] reads is an own property of the desktop-side
    object: [v] is recorded as a desktop-side key. *)
Definition desktop_key (this : MobileDesktopPairings) (v : value) : bool :=
  bool_decide (is_Some (_keyedByDesktop this !! toPropertyKey v)).

(** ** A session to run the listeners on

    Desktop window 10 and mobile window 20, with the desktop tab 1 paired
    with the mobile tab 2. *)
Definition session : background :=
  {| tabPairs := final (addPair (VInt 1) (VInt 2) constructor);
     desktopWindowId := VInt 10; mobileWindowId := VInt 20;
     newTabBeingCreated := false; focusedWindowId := VInt 10; issued := [] |}.

(** A tab the user opens in the desktop window, and the tab the browser
    makes in the mobile window for it. *)
Definition userTab : object :=
  {[ "id" := VInt 8; "windowId" := VInt 10; "url" := VString "https://x.com" ]}.
Definition mirrorTab : object :=
  {[ "id" := VInt 9; "windowId" := VInt 20; "url" := VString "about:blank" ]}.

(** Tab 1 as the browser describes it, and a navigation of it. *)
Definition desktopTab : object :=
  {[ "id" := VInt 1; "windowId" := VInt 10; "url" := VString "https://x.com" ]}.
Definition navigation : object := {[ "url" := VString "https://x.com" ]}.

(** The other scripts of the extension, with scroll lock on. *)
Definition lockedPage : backgroundPage :=
  {| getDevice := {[ "width" := VInt 375; "height" := VInt 667;
                     "ua" := VString "Mobile Safari" ]};
     getStartSession := VString "reuse";
     getScrollLock := VString "on" |}.

(** A scroll report of the content script. *)
Definition scrollMessage : object := {[ "scrollPercentage" := VInt 50 ]}.

(** The headers of a request. *)
Definition requestHeaders : list object :=
  [ {[ "name" := VString "Accept"; "value" := VString "*/*" ]};
    {[ "name" := VString "User-Agent"; "value" := VString "Chrome" ]};
    {[ "name" := VString "User-Agent"; "value" := VString "Again" ]} ].

(** ** Further definitions: results, stored integers, starting a session *)

(** The value an outcome returns, if it returns. *)
Definition returned {S A} (o : outcome S A) : option A :=
  match o with
  | Return a _ => Some a
  | Throw _ _ => None
  end.

(** Every own property of [o] has the key of an integer and holds an
    integer. *)
Definition integer_entries (o : object) : Prop :=
  forall k v, o !! k = Some v ->
    (exists d : Z, k = toPropertyKey (VInt d)) /\ (exists m : Z, v = VInt m).

Definition integer_store (this : MobileDesktopPairings) : Prop :=
  integer_entries (_keyedByDesktop this) /\ integer_entries (_keyedByMobile this).

(** The page variables, the log of calls left out. *)
Definition variables (w : background) : background := set_issued [] w.

(** The callback of [chrome.windows.create] in [mirrorDesktopWindow], lines
    178 to 182.  [mobileWindow_tab0] is [mobileWindow.tabs[0]]; the other
    three objects are the variables the callback closes over. *)
Definition mirrorDesktopWindow_created
    (desktopWindow desktopActiveTab mobileWindow mobileWindow_tab0 : object)
  : Eff background unit :=
  on_tabPairs (addPair desktopActiveTab.["id"] mobileWindow_tab0.["id"]) ;;
  modify (set_desktopWindowId desktopWindow.["id"]) ;;
  modify (set_mobileWindowId mobileWindow.["id"]).

(** The header names of a request, in order. *)
Definition header_names (headers : list object) : list value :=
  map (fun h : object => h.["name"]) headers.

(** Windows 10 and 20 and the first tab of window 20, as the browser
    describes them. *)
Definition desktopWindow : object := {[ "id" := VInt 10 ]}.
Definition mobileWindow : object := {[ "id" := VInt 20 ]}.
Definition mobileTab : object :=
  {[ "id" := VInt 2; "windowId" := VInt 20; "url" := VString "https://x.com" ]}.

(** ** Arguments that are objects

    A method may also be handed an object.  [Number.isInteger] is false of
    every object; [o[x]] converts an object [x] to a property key by running
    its [toString] or [valueOf], which gives a primitive value or throws. *)
Inductive argument : Type :=
| Primitive (v : value)
| Object (conversion : value + exn).

(** The value whose key [o[x]] uses, or what the conversion throws. *)
Definition converted (x : argument) : value + exn :=
  match x with
  | Primitive v => inl v
  | Object conversion => conversion
  end.

(** [isDesktopTab(tabId)], line 65, for any argument: the conversion of
    [tabId] to a property key comes first. *)
Definition isDesktopTab_any (tabId : argument)
  : Eff MobileDesktopPairings value :=
  match converted tabId with
  | inl v => isDesktopTab v
  | inr e => throw e
  end.

(** The [TypeError] thrown for an object that has no usable [toString] or
    [valueOf], such as [Object.create(null)]. *)
Definition typeError : exn := Error "Cannot convert object to primitive value".

(** ** A session in which the desktop tab 5 is paired with the mobile tab 0,
    and the activation of the mobile tab 2 *)
Definition zeroSession : background :=
  set_tabPairs (after (AddPair (VInt 5) (VInt 0)) (tabPairs session)) session.
Definition tabFive : object :=
  {[ "id" := VInt 5; "windowId" := VInt 10; "url" := VString "https://x.com" ]}.
Definition activationOfTwo : object :=
  {[ "tabId" := VInt 2; "windowId" := VInt 20 ]}.

(** ** Lemmas on property keys and object access *)

Lemma pretty_N_go_numeric_head x s :
  numeric_head s = true -> numeric_head (pretty_N_go x s) = true.
Proof.
  revert s. induction (N.lt_wf_0 x) as [x _ IH]; intros s Hs.
  destruct (decide (x = 0)%N) as [->|Hx].
  - by rewrite pretty_N_go_0.
  - rewrite pretty_N_go_step by lia. apply IH.
    + apply N.div_lt; lia.
    + unfold pretty_N_char. by repeat case_match.
Qed.

Lemma pretty_N_numeric_head (x : N) : numeric_head (pretty x) = true.
Proof.
  unfold pretty, pretty_N. case_decide; [done|].
  rewrite pretty_N_go_step by lia. apply pretty_N_go_numeric_head.
  unfold pretty_N_char. by repeat case_match.
Qed.

Lemma key_numeric_head (n : Z) : numeric_head (toPropertyKey (VInt n)) = true.
Proof.
  destruct n as [|p|p]; simpl; [done| |done].
  apply (pretty_N_numeric_head (N.pos p)).
Qed.

Lemma numeric_head_not_inherited k : numeric_head k = true -> inherited k = false.
Proof.
  destruct k as [|c k]; [done|].
  destruct c as [[] [] [] [] [] [] [] []]; try discriminate; intros _; reflexivity.
Qed.

Lemma key_not_inherited (n : Z) : inherited (toPropertyKey (VInt n)) = false.
Proof. apply numeric_head_not_inherited, key_numeric_head. Qed.

Lemma key_inj (a b : Z) :
  toPropertyKey (VInt a) = toPropertyKey (VInt b) -> a = b.
Proof. simpl. apply (inj pretty). Qed.

Lemma key_ne (a b : Z) : a <> b -> toPropertyKey (VInt a) <> toPropertyKey (VInt b).
Proof. intros Hab Hk. by apply Hab, key_inj. Qed.

Lemma get_set_eq (o : object) k x : get (set o k x) k = x.
Proof. unfold get, set. by rewrite lookup_insert_eq. Qed.

Lemma get_set_ne (o : object) (a b : Z) x :
  a <> b -> get (set o (VInt a) x) (VInt b) = get o (VInt b).
Proof.
  intros Hab. unfold get, set.
  by rewrite lookup_insert_ne by (by apply key_ne).
Qed.

Lemma get_del_eq (o : object) (a : Z) : get (del o (VInt a)) (VInt a) = VUndefined.
Proof.
  unfold get, del. by rewrite lookup_delete_eq, key_not_inherited.
Qed.

Lemma get_del_ne (o : object) (a b : Z) :
  a <> b -> get (del o (VInt a)) (VInt b) = get o (VInt b).
Proof.
  intros Hab. unfold get, del.
  by rewrite lookup_delete_ne by (by apply key_ne).
Qed.

Lemma get_empty_int (n : Z) : get ∅ (VInt n) = VUndefined.
Proof. unfold get. by rewrite lookup_empty, key_not_inherited. Qed.

Lemma truthy_int (n : Z) : n <> 0 -> truthy (VInt n) = true.
Proof. intros Hn. simpl. by destruct (Z.eqb_spec n 0). Qed.

Lemma logical_or_truthy a b : truthy a = true -> logical_or a b = a.
Proof. unfold logical_or. by intros ->. Qed.

Lemma logical_or_falsy a b : truthy a = false -> logical_or a b = b.
Proof. unfold logical_or. by intros ->. Qed.

Lemma strict_eq_string v s : strict_eq v (VString s) = true <-> v = VString s.
Proof.
  destruct v; simpl; rewrite ?bool_decide_eq_true; try done.
Qed.

(** ** The pairing store, method by method *)

Lemma addPair_int (a b : Z) this :
  addPair (VInt a) (VInt b) this
  = Return tt
      {| _keyedByDesktop := set (_keyedByDesktop this) (VInt a) (VInt b);
         _keyedByMobile := set (_keyedByMobile this) (VInt b) (VInt a) |}.
Proof. reflexivity. Qed.

Lemma removeTabPair_int (x : Z) this :
  removeTabPair (VInt x) this
  = Return tt
      {| _keyedByDesktop := del (_keyedByDesktop this) (VInt x);
         _keyedByMobile := del (_keyedByMobile this) (VInt x) |}.
Proof. reflexivity. Qed.

Lemma getCorrespondingTab_int (x : Z) this :
  getCorrespondingTab (VInt x) this
  = Return (logical_or (logical_or (get (_keyedByDesktop this) (VInt x))
                         (get (_keyedByMobile this) (VInt x)))
                  (VBool false)) this.
Proof. reflexivity. Qed.

Lemma contains_int (x : Z) this :
  contains (VInt x) this
  = Return (VBool (truthy (get (_keyedByDesktop this) (VInt x))
                   || truthy (get (_keyedByMobile this) (VInt x)))) this.
Proof.
  unfold contains, getCorrespondingTab, bind, ret, gets.
  cbn [isInteger negb]. unfold logical_not, logical_or. do 2 f_equal.
  destruct (truthy (get (_keyedByDesktop this) (VInt x))) eqn:Hd;
    cbv iota; rewrite ?Hd; [done|].
  destruct (truthy (get (_keyedByMobile this) (VInt x))) eqn:Hm;
    cbv iota; by rewrite ?Hm.
Qed.

Lemma isDesktopTab_eq v this :
  isDesktopTab v this
  = Return (VBool (truthy (get (_keyedByDesktop this) v))) this.
Proof.
  unfold isDesktopTab, gets, logical_not. cbn [truthy]. by rewrite negb_involutive.
Qed.

Lemma removeTabPair_unknown (x : Z) this :
  _keyedByDesktop this !! toPropertyKey (VInt x) = None ->
  _keyedByMobile this !! toPropertyKey (VInt x) = None ->
  removeTabPair (VInt x) this = Return tt this.
Proof.
  intros Hd Hm. rewrite removeTabPair_int. unfold del.
  rewrite !delete_id by done. by destruct this.
Qed.

(** C1: [removeTabPair(a)] deletes only the entries keyed by [a].  After
    [addPair(a, b)] with [a] and [b] distinct and [a] not zero, the call
    [removeTabPair(a)] returns, and [contains(a)] is then false, but the
    entry of the other direction, from [b] to [a], is still there and
    [contains(b)] is still true. *)
Theorem removeTabPair_keeps_reverse_entry
    (this : MobileDesktopPairings) (a b : Z) (Hab : a <> b) (Ha : a <> 0) :
  let this' := final ((addPair (VInt a) (VInt b) ;; removeTabPair (VInt a)) this) in
  (addPair (VInt a) (VInt b) ;; removeTabPair (VInt a)) this = Return tt this'
  /\ contains (VInt a) this' = Return (VBool false) this'
  /\ get (_keyedByMobile this') (VInt b) = VInt a
  /\ getCorrespondingTab (VInt b) this' <> Return (VBool false) this'
  /\ contains (VInt b) this' = Return (VBool true) this'.
Proof.
  unfold bind. rewrite addPair_int, removeTabPair_int. cbn [final].
  split; [done|].
  rewrite !contains_int, getCorrespondingTab_int.
  cbn [_keyedByDesktop _keyedByMobile].
  rewrite !get_del_eq, !(get_del_ne _ a b), get_set_eq, (get_set_ne _ a b)
    by done.
  rewrite (truthy_int a Ha), orb_true_r.
  repeat split.
  unfold logical_or. destruct (truthy (get _ (VInt b))) eqn:Hd; cbv iota.
  - rewrite Hd. intros [= Heq]. by rewrite Heq in Hd.
  - rewrite (truthy_int a Ha). discriminate.
Qed.

Lemma removeTabPair_keeps_reverse_entry_witness :
  contains (VInt 2)
    (final ((addPair (VInt 1) (VInt 2) ;; removeTabPair (VInt 1)) constructor))
  = Return (VBool true)
      (final ((addPair (VInt 1) (VInt 2) ;; removeTabPair (VInt 1)) constructor)).
Proof.
  apply (removeTabPair_keeps_reverse_entry constructor 1 2); lia.
Defined.

(** C3, as stated, fails: [addPair(1, 0)] on a new store leaves
    [getCorrespondingTab(1)] equal to [false], because the stored [0] is
    falsy; and after [addPair(2, 3)], [addPair(1, 2)] leaves
    [getCorrespondingTab(2)] equal to [3], the older desktop-side entry. *)
Lemma addPair_pairs_fails :
  ~ addPair_pairs constructor 1 0
  /\ ~ addPair_pairs (after (AddPair (VInt 2) (VInt 3)) constructor) 1 2.
Proof.
  split; intros (H1 & H2 & _); vm_compute in H1, H2; discriminate.
Qed.

(** C3, amended: for all integers [a] and [b] other than zero, and every
    store in which [b] is not a desktop tab ([isDesktopTab(b)] is false),
    after [addPair(a, b)] [getCorrespondingTab(a)] is [b],
    [getCorrespondingTab(b)] is [a], and [contains(a)] and [contains(b)] are
    both true. *)
Theorem addPair_pairs_nonzero
    (this : MobileDesktopPairings) (a b : Z) (Ha : a <> 0) (Hb : b <> 0)
    (Hdesktop : isDesktopTab (VInt b) this = Return (VBool false) this) :
  addPair_pairs this a b.
Proof.
  rewrite isDesktopTab_eq in Hdesktop.
  assert (truthy (get (_keyedByDesktop this) (VInt b)) = false) as Hd
    by congruence.
  pose proof (truthy_int a Ha) as Hta. pose proof (truthy_int b Hb) as Htb.
  unfold addPair_pairs. rewrite addPair_int. cbn [final].
  rewrite !contains_int, !getCorrespondingTab_int.
  cbn [_keyedByDesktop _keyedByMobile]. rewrite !get_set_eq.
  rewrite Hta, Htb, orb_true_r.
  rewrite (logical_or_truthy (VInt b)), (logical_or_truthy (VInt b)) by done.
  repeat split.
  destruct (decide (a = b)) as [->|Hab].
  - rewrite get_set_eq.
    by rewrite (logical_or_truthy (VInt b)), (logical_or_truthy (VInt b)).
  - rewrite get_set_ne by done.
    rewrite (logical_or_falsy (get _ _)) by done.
    by rewrite (logical_or_truthy (VInt a)).
Qed.

Lemma addPair_pairs_nonzero_witness : addPair_pairs constructor 1 2.
Proof.
  apply addPair_pairs_nonzero; [lia | lia | reflexivity].
Defined.

Lemma addPair_non_integer this (d m : value) :
  isInteger d = false \/ isInteger m = false ->
  addPair d m this
  = Throw (Error "Tried to insert non-integer into MobileDesktopPairings") this.
Proof.
  unfold addPair. by intros [-> | ->]; rewrite ?orb_true_r.
Qed.

(** C6: when either argument is not an integer, [addPair] throws the error
    the specification calls [InvalidIdentifier], and the store it leaves is
    the store it was called on. *)
Theorem addPair_rejects_non_integer
    (this : MobileDesktopPairings) (desktopTabId mobileTabId : value)
    (H : isInteger desktopTabId = false \/ isInteger mobileTabId = false) :
  exists e, InvalidIdentifier e
    /\ addPair desktopTabId mobileTabId this = Throw e this.
Proof.
  exists (Error "Tried to insert non-integer into MobileDesktopPairings").
  split; [by left|]. by apply addPair_non_integer.
Qed.

Lemma addPair_rejects_non_integer_witness :
  exists e, InvalidIdentifier e
    /\ addPair (VString "7") (VInt 8)
         (final (addPair (VInt 1) (VInt 2) constructor))
       = Throw e (final (addPair (VInt 1) (VInt 2) constructor)).
Proof.
  apply addPair_rejects_non_integer. left. reflexivity.
Defined.

(** ** The one-to-one invariant *)

Lemma get_int_lookup (o : object) (d : Z) (v : value) :
  get o (VInt d) = v -> v <> VUndefined -> o !! toPropertyKey (VInt d) = Some v.
Proof.
  unfold get. rewrite key_not_inherited.
  destruct (o !! toPropertyKey (VInt d)); [by intros ->|by intros <-].
Qed.

Lemma mentions_key (o : object) (d : Z) (v : value) :
  get o (VInt d) = v -> v <> VUndefined -> mentions o d = true.
Proof.
  intros Hget Hv. apply get_int_lookup in Hget; [|done].
  unfold mentions. rewrite Hget. by rewrite bool_decide_eq_true_2.
Qed.

Lemma mentions_value (o : object) (d m : Z) :
  get o (VInt d) = VInt m -> mentions o m = true.
Proof.
  intros Hget. apply get_int_lookup in Hget; [|done].
  unfold mentions. apply orb_true_iff. right. apply bool_decide_eq_true.
  apply list_elem_of_fmap. exists (toPropertyKey (VInt d), VInt m).
  split; [done|]. by apply elem_of_map_to_list.
Qed.

Lemma unused_recorded this x d m :
  unused this x = true -> recorded this d m -> x <> d /\ x <> m.
Proof.
  unfold unused. rewrite andb_true_iff, !negb_true_iff. intros [HD HM] [H|H].
  - split; intros ->.
    + by rewrite (mentions_key _ _ _ H) in HD.
    + by rewrite (mentions_value _ _ _ H) in HD.
  - split; intros ->.
    + by rewrite (mentions_value _ _ _ H) in HM.
    + by rewrite (mentions_key _ _ _ H) in HM.
Qed.

Lemma recorded_addPair this (a b d m : Z) :
  recorded (after (AddPair (VInt a) (VInt b)) this) d m ->
  recorded this d m \/ (d = a /\ m = b).
Proof.
  unfold after, perform. rewrite addPair_int. unfold recorded.
  cbn [final _keyedByDesktop _keyedByMobile]. intros [H|H].
  - destruct (decide (a = d)) as [->|Hne].
    + rewrite get_set_eq in H. right. by injection H.
    + rewrite get_set_ne in H by done. by left; left.
  - destruct (decide (b = m)) as [->|Hne].
    + rewrite get_set_eq in H. right. by injection H.
    + rewrite get_set_ne in H by done. by left; right.
Qed.

Lemma recorded_removeTabPair this (x d m : Z) :
  recorded (after (RemoveTabPair (VInt x)) this) d m -> recorded this d m.
Proof.
  unfold after, perform. rewrite removeTabPair_int. unfold recorded.
  cbn [final _keyedByDesktop _keyedByMobile]. intros [H|H].
  - destruct (decide (x = d)) as [->|Hne].
    + by rewrite get_del_eq in H.
    + rewrite get_del_ne in H by done. by left.
  - destruct (decide (x = m)) as [->|Hne].
    + by rewrite get_del_eq in H.
    + rewrite get_del_ne in H by done. by right.
Qed.

Lemma recorded_clearPairings this (d m : Z) :
  ~ recorded (after ClearPairings this) d m.
Proof.
  unfold after, perform, recorded. cbn. rewrite !get_empty_int.
  by intros [|].
Qed.

Lemma after_addPair_non_integer this (d m : value) :
  isInteger d && isInteger m = false -> after (AddPair d m) this = this.
Proof.
  unfold after, perform, addPair. rewrite <-negb_andb. by intros ->.
Qed.

Lemma after_removeTabPair_non_integer this (x : value) :
  isInteger x = false -> after (RemoveTabPair x) this = this.
Proof. unfold after, perform, removeTabPair. by intros ->. Qed.

Lemma one_to_one_new : one_to_one constructor.
Proof.
  intros x d1 m1 d2 m2 [H|H]; unfold constructor in H; cbn in H;
    by rewrite get_empty_int in H.
Qed.

Lemma one_to_one_after this op :
  one_to_one this -> pairs_unused this op = true -> one_to_one (after op this).
Proof.
  intros Hinv Hop. destruct op as [d m|x|].
  - destruct (isInteger d && isInteger m) eqn:Hint.
    2:{ by rewrite after_addPair_non_integer. }
    destruct d as [| | |a| | | |]; try discriminate.
    destruct m as [| | |b| | | |]; try discriminate.
    cbn in Hop. apply andb_true_iff in Hop as [Ha Hb].
    intros x d1 m1 d2 m2 H1 H2 Hx1 Hx2.
    apply recorded_addPair in H1 as [H1|[-> ->]];
      apply recorded_addPair in H2 as [H2|[-> ->]].
    + by apply (Hinv x).
    + pose proof (unused_recorded _ _ _ _ Ha H1).
      pose proof (unused_recorded _ _ _ _ Hb H1). lia.
    + pose proof (unused_recorded _ _ _ _ Ha H2).
      pose proof (unused_recorded _ _ _ _ Hb H2). lia.
    + done.
  - destruct (isInteger x) eqn:Hint.
    2:{ by rewrite after_removeTabPair_non_integer. }
    destruct x as [| | |x| | | |]; try discriminate.
    intros y d1 m1 d2 m2 H1 H2.
    apply recorded_removeTabPair in H1, H2. by apply Hinv.
  - intros y d1 m1 d2 m2 H1. by apply recorded_clearPairings in H1.
Qed.

(** C4, as stated, fails: the store left by [addPair(1, 2)] and then
    [addPair(1, 3)] is reachable, yet it records both the pair of 1 and 2
    (in the mobile-side entry of 2) and the pair of 1 and 3, and
    [contains(2)] is still true there. *)
Lemma one_to_one_fails :
  reachable (after (AddPair (VInt 1) (VInt 3))
               (after (AddPair (VInt 1) (VInt 2)) constructor))
  /\ ~ one_to_one (after (AddPair (VInt 1) (VInt 3))
                     (after (AddPair (VInt 1) (VInt 2)) constructor))
  /\ contains (VInt 2) (after (AddPair (VInt 1) (VInt 3))
                          (after (AddPair (VInt 1) (VInt 2)) constructor))
     = Return (VBool true) (after (AddPair (VInt 1) (VInt 3))
                              (after (AddPair (VInt 1) (VInt 2)) constructor)).
Proof.
  split; [repeat constructor|]. split; [|by vm_compute].
  intros Hinv.
  destruct (Hinv 1 1 2 1 3) as [_ Heq];
    [by right; vm_compute|by left; vm_compute|by left|by left|discriminate].
Qed.

(** C4, amended: in every store reachable from a new one by calls of
    [removeTabPair], [clearPairings] and [addPair], where each [addPair]
    pairs two integers that appear nowhere in the store it is called on,
    each identifier appears in at most one recorded pair.  And on any
    store, [addPair(a, c)] after [addPair(a, b)] overwrites only the
    desktop-side entry of [a], which then holds [c]; the mobile-side entry
    of [b] still holds [a], so the pair of [a] and [b] is still recorded. *)
Theorem one_to_one_when_pairing_unused :
  (forall this, reachable_unused this -> one_to_one this)
  /\ (forall this (a b c : Z),
        let this' := after (AddPair (VInt a) (VInt c))
                       (after (AddPair (VInt a) (VInt b)) this) in
        get (_keyedByDesktop this') (VInt a) = VInt c
        /\ get (_keyedByMobile this') (VInt b) = VInt a
        /\ recorded this' a c /\ recorded this' a b).
Proof.
  split.
  - intros this Hreach. induction Hreach as [|op this _ IH Hop].
    + apply one_to_one_new.
    + by apply one_to_one_after.
  - intros this a b c. unfold after, perform. rewrite !addPair_int.
    cbn [final]. unfold recorded. cbn [_keyedByDesktop _keyedByMobile].
    assert (get (set (set (_keyedByMobile this) (VInt b) (VInt a))
                   (VInt c) (VInt a)) (VInt b) = VInt a) as Hb.
    { destruct (decide (c = b)) as [->|Hne].
      - by rewrite get_set_eq.
      - by rewrite get_set_ne, get_set_eq. }
    rewrite get_set_eq. repeat split; auto.
Qed.

Lemma one_to_one_when_pairing_unused_witness :
  one_to_one (after (AddPair (VInt 3) (VInt 4))
                (after (RemoveTabPair (VInt 1))
                   (after (AddPair (VInt 1) (VInt 2)) constructor))).
Proof.
  apply (proj1 one_to_one_when_pairing_unused).
  repeat (apply reachable_unused_call; [|vm_compute; reflexivity]).
  apply reachable_unused_new.
Defined.

(** C10, as stated, fails twice.  On a new store, where nothing is
    recorded, [isDesktopTab("constructor")] is true, because the lookup
    falls through to [Object.prototype]; and for an object that cannot be
    converted to a property key the lookup of line 65 throws a [TypeError],
    so no boolean is returned. *)
Lemma isDesktopTab_inherited_name :
  (desktop_key constructor (VString "constructor") = false
   /\ isDesktopTab (VString "constructor") constructor
      = Return (VBool true) constructor)
  /\ isDesktopTab_any (Object (inr typeError)) constructor
     = Throw typeError constructor.
Proof. repeat split. Qed.

Lemma store_methods_reject_non_integer (this : MobileDesktopPairings) (v : value) :
  isInteger v = false ->
  exists e, InvalidIdentifier e
    /\ getCorrespondingTab v this = Throw e this
    /\ contains v this = Throw e this
    /\ removeTabPair v this = Throw e this
    /\ (forall other, exists e',
          InvalidIdentifier e' /\ addPair v other this = Throw e' this).
Proof.
  intros Hint. exists (Error "Given Tab Id is not an integer").
  unfold getCorrespondingTab, contains, removeTabPair. rewrite Hint.
  repeat split; [by right|].
  intros other. eexists. split; [by left|].
  by apply addPair_non_integer; left.
Qed.

(** C10, amended: [isDesktopTab] has no integer guard and never throws
    [InvalidIdentifier] of its own.  For every input that converts to a
    property key, which every primitive value does, integer or not, it
    returns a boolean and leaves the store as it was, whereas
    [getCorrespondingTab], [contains], [removeTabPair] and [addPair] throw
    [InvalidIdentifier] on a value that is not an integer.  The boolean is
    false whenever the key is not recorded as a desktop-side key and is not
    the name of a property inherited from [Object.prototype]; no integer
    has such a key.  For an object whose conversion to a property key
    throws, what the conversion throws comes out of [isDesktopTab], and the
    store is as it was. *)
Theorem isDesktopTab_unguarded (this : MobileDesktopPairings) (tabId : argument) :
  (forall v, converted tabId = inl v ->
     (exists b : bool, isDesktopTab_any tabId this = Return (VBool b) this)
     /\ isDesktopTab_any tabId this = isDesktopTab v this
     /\ (desktop_key this v = false ->
         inherited (toPropertyKey v) = false ->
         isDesktopTab_any tabId this = Return (VBool false) this)
     /\ (desktop_key this v = false ->
         isInteger v = true ->
         isDesktopTab_any tabId this = Return (VBool false) this)
     /\ (isInteger v = false ->
         exists e, InvalidIdentifier e
           /\ getCorrespondingTab v this = Throw e this
           /\ contains v this = Throw e this
           /\ removeTabPair v this = Throw e this
           /\ (forall other, exists e',
                 InvalidIdentifier e' /\ addPair v other this = Throw e' this)))
  /\ (forall e, converted tabId = inr e ->
        isDesktopTab_any tabId this = Throw e this).
Proof.
  split.
  - intros v Hv. unfold isDesktopTab_any. rewrite Hv.
    assert (desktop_key this v = false ->
            inherited (toPropertyKey v) = false ->
            isDesktopTab v this = Return (VBool false) this) as Hfalse.
    { rewrite isDesktopTab_eq. unfold desktop_key, get.
      intros Hkey%bool_decide_eq_false ->.
      destruct (_ !! _); [|done]. by destruct Hkey. }
    split; [|split; [|split; [|split]]].
    + rewrite isDesktopTab_eq. eauto.
    + done.
    + done.
    + intros Hkey Hint. apply Hfalse; [done|].
      destruct v; try discriminate. apply key_not_inherited.
    + apply store_methods_reject_non_integer.
  - intros e He. unfold isDesktopTab_any. by rewrite He.
Qed.

Lemma isDesktopTab_unguarded_witness :
  isDesktopTab_any (Object (inl (VString "tab")))
    (final (addPair (VInt 1) (VInt 2) constructor))
  = Return (VBool false) (final (addPair (VInt 1) (VInt 2) constructor)).
Proof.
  destruct (proj1 (isDesktopTab_unguarded
                     (final (addPair (VInt 1) (VInt 2) constructor))
                     (Object (inl (VString "tab"))))
              (VString "tab") eq_refl) as (_ & _ & Hfalse & _).
  apply Hfalse; reflexivity.
Defined.

(** ** The listeners *)

Lemma set_tabPairs_same w : set_tabPairs (tabPairs w) w = w.
Proof. by destruct w. Qed.

Lemma on_tabPairs_read {A} (m : Eff MobileDesktopPairings A) w (a : A) :
  m (tabPairs w) = Return a (tabPairs w) -> on_tabPairs m w = Return a w.
Proof. unfold on_tabPairs. intros ->. by rewrite set_tabPairs_same. Qed.

Lemma on_tabPairs_throw {A} (m : Eff MobileDesktopPairings A) w e :
  m (tabPairs w) = Throw e (tabPairs w) -> on_tabPairs m w = Throw e w.
Proof. unfold on_tabPairs. intros ->. by rewrite set_tabPairs_same. Qed.

Lemma calls_of_unchanged {A} (m : Eff background A) w :
  final (m w) = w -> calls_of m w = [].
Proof. unfold calls_of. intros ->. apply drop_all. Qed.

Lemma calls_of_chrome bg c : calls_of (chrome c) bg = [c].
Proof.
  unfold calls_of, chrome, modify. cbn. apply drop_app_length.
Qed.

Lemma truthy_logical_and a b :
  truthy (logical_and a b) = truthy a && truthy b.
Proof. unfold logical_and. by destruct (truthy a) eqn:Ha. Qed.

Lemma truthy_logical_not a : truthy (logical_not a) = negb (truthy a).
Proof. reflexivity. Qed.

Lemma getCorrespondingTab_returns (n : Z) this :
  exists t, getCorrespondingTab (VInt n) this = Return t this
    /\ contains (VInt n) this = Return (VBool (truthy t)) this.
Proof.
  eexists. split; [apply getCorrespondingTab_int|].
  unfold contains, bind, ret. cbn [isInteger negb].
  rewrite getCorrespondingTab_int. unfold logical_not. cbn [truthy].
  by rewrite negb_involutive.
Qed.

(** *** Tab created *)

Lemma tabs_onCreated_ignored w newUserTab :
  newTabBeingCreated w = true
  \/ (strict_eq newUserTab.["windowId"] (desktopWindowId w) = false
      /\ strict_eq newUserTab.["windowId"] (mobileWindowId w) = false) ->
  tabs_onCreated newUserTab w = Return tt w.
Proof.
  unfold tabs_onCreated, bind, gets. by intros [-> | [-> ->]]; rewrite ?andb_false_r.
Qed.

Lemma tabs_onCreated_mirrors w newUserTab :
  newTabBeingCreated w = false ->
  strict_eq newUserTab.["windowId"] (desktopWindowId w) = true
  \/ strict_eq newUserTab.["windowId"] (mobileWindowId w) = true ->
  exists windowId from,
    tabs_onCreated newUserTab w
    = Return tt
        (set_issued
           (issued w
            ++ [tabs_create windowId (created from newUserTab newUserTab.["url"])])
           (set_newTabBeingCreated true w))
    /\ (windowId = mobileWindowId w \/ windowId = desktopWindowId w).
Proof.
  intros Hguard Hwin. unfold tabs_onCreated, bind, gets. rewrite Hguard.
  cbn [negb andb].
  destruct (strict_eq _ (desktopWindowId w)) eqn:Hd.
  - exists (mobileWindowId w), FromDesktop. split; [reflexivity|by left].
  - destruct Hwin as [Hwin|Hwin]; [done|]. rewrite Hwin.
    exists (desktopWindowId w), FromMobile. split; [reflexivity|by right].
Qed.

(** C5: when the guard [newTabBeingCreated] is set, or the window of the new
    tab is neither the desktop nor the mobile window, the listener returns
    having made no call and changed nothing.  Otherwise it sets the guard
    and makes exactly one [chrome.tabs.create] call; from then on, and still
    after the callback of that call has run, the creation event of any tab,
    the mirror tab included, is ignored; the guard is cleared only by the
    callback that records the pair. *)
Theorem tabs_onCreated_one_hop (w : background) (newUserTab : object) :
  (newTabBeingCreated w = true
   \/ (strict_eq newUserTab.["windowId"] (desktopWindowId w) = false
       /\ strict_eq newUserTab.["windowId"] (mobileWindowId w) = false) ->
   tabs_onCreated newUserTab w = Return tt w
   /\ calls_of (tabs_onCreated newUserTab) w = [])
  /\ (newTabBeingCreated w = false ->
      strict_eq newUserTab.["windowId"] (desktopWindowId w) = true
      \/ strict_eq newUserTab.["windowId"] (mobileWindowId w) = true ->
      let w' := final (tabs_onCreated newUserTab w) in
      (exists windowId cb,
          calls_of (tabs_onCreated newUserTab) w = [tabs_create windowId cb])
      /\ newTabBeingCreated w' = true
      /\ tabPairs w' = tabPairs w
      /\ (forall echo, tabs_onCreated echo w' = Return tt w')
      /\ (forall echo from user url answer,
             let w'' := final (run_callback (created from user url) answer w') in
             newTabBeingCreated w'' = true
             /\ tabs_onCreated echo w'' = Return tt w'')
      /\ (forall from user programmatic answer,
             isInteger user.["id"] = true ->
             isInteger programmatic.["id"] = true ->
             newTabBeingCreated
               (final (run_callback (updated from user programmatic) answer w'))
             = false)).
Proof.
  split.
  - intros H. pose proof (tabs_onCreated_ignored _ _ H) as Heq.
    split; [done|]. apply calls_of_unchanged. by rewrite Heq.
  - intros Hguard Hwin.
    destruct (tabs_onCreated_mirrors _ _ Hguard Hwin) as (win & from & Heq & _).
    unfold calls_of. rewrite Heq. cbn [final issued set_issued].
    split; [|split; [done|split; [done|split; [|split]]]].
    + exists win, (created from newUserTab newUserTab.["url"]).
      apply drop_app_length.
    + intros echo. by apply tabs_onCreated_ignored; left.
    + intros echo from' user url answer. split; [reflexivity|].
      apply tabs_onCreated_ignored. left. reflexivity.
    + intros from' user programmatic answer Hu Hp.
      destruct (user.["id"]) as [| | |a| | | |] eqn:Ha; try discriminate.
      destruct (programmatic.["id"]) as [| | |b| | | |] eqn:Hb; try discriminate.
      destruct from'; unfold run_callback, bind, on_tabPairs;
        rewrite Ha, Hb, addPair_int; reflexivity.
Qed.

Lemma tabs_onCreated_one_hop_witness :
  tabs_onCreated mirrorTab (final (tabs_onCreated userTab session))
  = Return tt (final (tabs_onCreated userTab session)).
Proof.
  destruct (proj2 (tabs_onCreated_one_hop session userTab)
              eq_refl (or_introl eq_refl)) as (_ & _ & _ & Hecho & _).
  exact (Hecho mirrorTab).
Defined.

(** *** Tab updated *)

Lemma tabs_onUpdated_non_integer w tabId changeInfo tab :
  isInteger tabId = false ->
  final (tabs_onUpdated tabId changeInfo tab w) = w.
Proof.
  intros Hint. unfold tabs_onUpdated, bind.
  rewrite (on_tabPairs_throw _ _ (Error "Given Tab Id is not an integer"));
    [done|].
  unfold getCorrespondingTab. by rewrite Hint.
Qed.

Lemma tabs_onUpdated_int w (n : Z) changeInfo tab t :
  getCorrespondingTab (VInt n) (tabPairs w) = Return t (tabPairs w) ->
  tabs_onUpdated (VInt n) changeInfo tab w
  = (if truthy changeInfo.["url"] && truthy t
        && strict_eq tab.["windowId"] (focusedWindowId w)
     then chrome (tabs_update t (url_is changeInfo.["url"]) None) w
     else Return tt w).
Proof.
  intros Ht. unfold tabs_onUpdated, bind.
  rewrite (on_tabPairs_read _ _ _ Ht). unfold gets.
  rewrite !truthy_logical_and. cbn [truthy]. by destruct (_ && _).
Qed.

Lemma lookup_by_entries (this : MobileDesktopPairings) (x partner : Z) :
  partner <> 0 ->
  get (_keyedByDesktop this) (VInt x) = VInt partner
  \/ (truthy (get (_keyedByDesktop this) (VInt x)) = false
      /\ get (_keyedByMobile this) (VInt x) = VInt partner) ->
  getCorrespondingTab (VInt x) this = Return (VInt partner) this
  /\ contains (VInt x) this = Return (VBool true) this.
Proof.
  intros Hp Hentry. pose proof (truthy_int partner Hp) as Htp.
  rewrite getCorrespondingTab_int, contains_int.
  destruct Hentry as [->|[Hd ->]].
  - rewrite Htp, (logical_or_truthy (VInt partner) (get _ _) Htp).
    by rewrite (logical_or_truthy (VInt partner) _ Htp).
  - rewrite Hd, Htp, (logical_or_falsy _ (VInt partner) Hd).
    by rewrite (logical_or_truthy (VInt partner) _ Htp).
Qed.

Lemma contains_true_entries (this : MobileDesktopPairings) (tabId : value) :
  contains tabId this = Return (VBool true) this ->
  exists x : Z, tabId = VInt x
    /\ (truthy (get (_keyedByDesktop this) (VInt x)) = true
        \/ truthy (get (_keyedByMobile this) (VInt x)) = true).
Proof.
  destruct (isInteger tabId) eqn:Hint.
  2:{ unfold contains. by rewrite Hint. }
  destruct tabId as [| | |x| | | |]; try discriminate.
  rewrite contains_int. intros [= Htrue]. exists x. split; [done|].
  by apply orb_true_iff.
Qed.

(** C7, as stated, fails: in a session whose store records the pair of the
    desktop tab 5 and the mobile tab 0, a navigation of tab 5 in the
    focused window brings no call, because the stored [0] is falsy:
    [contains(5)] is false. *)
Lemma tabs_onUpdated_pair_with_zero :
  recorded (tabPairs zeroSession) 5 0
  /\ truthy navigation.["url"] = true
  /\ strict_eq tabFive.["windowId"] (focusedWindowId zeroSession) = true
  /\ contains (VInt 5) (tabPairs zeroSession)
     = Return (VBool false) (tabPairs zeroSession)
  /\ calls_of (tabs_onUpdated (VInt 5) navigation tabFive) zeroSession = [].
Proof. split; [by left|]. repeat split. Qed.

(** C7, amended: for a tab-updated event whose change record carries a
    (truthy) URL, the listener makes a call exactly when [contains] is true
    of the updated tab, that is when the desktop-side or the mobile-side
    entry of the tab holds a truthy id, and the window of the tab is the
    recorded focused window.  The call is then the one [chrome.tabs.update]
    that sends to that URL the tab the store holds for the updated tab: its
    desktop-side entry when that is not zero, otherwise its mobile-side
    entry.  In every other case it makes no call. *)
Theorem tabs_onUpdated_navigates
    (w : background) (tabId : value) (changeInfo tab : object)
    (Hurl : truthy changeInfo.["url"] = true) :
  (has_pair (tabPairs w) tabId
   /\ strict_eq tab.["windowId"] (focusedWindowId w) = true ->
   exists t,
     getCorrespondingTab tabId (tabPairs w) = Return t (tabPairs w)
     /\ calls_of (tabs_onUpdated tabId changeInfo tab) w
        = [tabs_update t (url_is changeInfo.["url"]) None])
  /\ (~ (has_pair (tabPairs w) tabId
         /\ strict_eq tab.["windowId"] (focusedWindowId w) = true) ->
      calls_of (tabs_onUpdated tabId changeInfo tab) w = [])
  /\ (has_pair (tabPairs w) tabId ->
      exists x : Z, tabId = VInt x
        /\ (truthy (get (_keyedByDesktop (tabPairs w)) (VInt x)) = true
            \/ truthy (get (_keyedByMobile (tabPairs w)) (VInt x)) = true))
  /\ (forall x partner : Z,
        tabId = VInt x -> partner <> 0 ->
        get (_keyedByDesktop (tabPairs w)) (VInt x) = VInt partner
        \/ (truthy (get (_keyedByDesktop (tabPairs w)) (VInt x)) = false
            /\ get (_keyedByMobile (tabPairs w)) (VInt x) = VInt partner) ->
        has_pair (tabPairs w) tabId
        /\ (strict_eq tab.["windowId"] (focusedWindowId w) = true ->
            calls_of (tabs_onUpdated tabId changeInfo tab) w
            = [tabs_update (VInt partner) (url_is changeInfo.["url"]) None])).
Proof.
  unfold has_pair. split; [|split; [|split]].
  - destruct (isInteger tabId) eqn:Hint.
    2:{ unfold contains. rewrite Hint. by intros [? _]. }
    destruct tabId as [| | |n| | | |]; try discriminate.
    destruct (getCorrespondingTab_returns n (tabPairs w)) as (t & Ht & Hc).
    rewrite Hc. unfold calls_of.
    rewrite (tabs_onUpdated_int _ _ _ _ _ Ht), Hurl. cbn [andb].
    intros [[= Hpair] Hfocus]. rewrite Hpair, Hfocus. cbn [andb].
    exists t. split; [done|]. apply (calls_of_chrome w).
  - destruct (isInteger tabId) eqn:Hint.
    2:{ intros _. apply calls_of_unchanged.
        by apply tabs_onUpdated_non_integer. }
    destruct tabId as [| | |n| | | |]; try discriminate.
    destruct (getCorrespondingTab_returns n (tabPairs w)) as (t & Ht & Hc).
    rewrite Hc. unfold calls_of.
    rewrite (tabs_onUpdated_int _ _ _ _ _ Ht), Hurl. cbn [andb].
    intros Hnot.
    destruct (truthy t && strict_eq tab.["windowId"] (focusedWindowId w))
      eqn:Hcond; [|apply drop_all].
    apply andb_true_iff in Hcond as [Hpair Hfocus].
    destruct Hnot. by rewrite Hpair.
  - apply contains_true_entries.
  - intros x partner -> Hp Hentry.
    destruct (lookup_by_entries _ _ _ Hp Hentry) as [Ht Hc].
    split; [done|]. intros Hfocus. unfold calls_of.
    rewrite (tabs_onUpdated_int _ _ _ _ _ Ht), Hurl, Hfocus.
    rewrite (truthy_int partner Hp). cbn [andb]. apply (calls_of_chrome w).
Qed.

Lemma tabs_onUpdated_navigates_witness :
  calls_of (tabs_onUpdated (VInt 1) navigation desktopTab) session
  = [tabs_update (VInt 2) (url_is navigation.["url"]) None].
Proof.
  destruct (tabs_onUpdated_navigates session (VInt 1) navigation desktopTab
              eq_refl) as (_ & _ & _ & Htarget).
  destruct (Htarget 1 2 eq_refl) as [_ Hcall];
    [lia | left; reflexivity |].
  apply Hcall. reflexivity.
Defined.

(** *** Window removed *)

(** C8: when the removed window is the mobile window, the listener empties
    the pairing store, so that [contains(x)] is false for every integer [x],
    and puts the desktop window id, the mobile window id, the guard and the
    focused window id back to the values they have when the page is
    loaded; it makes no call. *)
Theorem windows_onRemoved_resets
    (w : background) (windowId : value)
    (Hmobile : strict_eq windowId (mobileWindowId w) = true) :
  let w' := final (windows_onRemoved windowId w) in
  windows_onRemoved windowId w = Return tt w'
  /\ w' = set_issued (issued w) loaded
  /\ tabPairs w' = constructor
  /\ desktopWindowId w' = VUndefined
  /\ mobileWindowId w' = VUndefined
  /\ newTabBeingCreated w' = false
  /\ focusedWindowId w' = VUndefined
  /\ (forall x : Z,
        contains (VInt x) (tabPairs w') = Return (VBool false) (tabPairs w')).
Proof.
  assert (windows_onRemoved windowId w
          = Return tt (set_issued (issued w) loaded)) as Heq.
  { unfold windows_onRemoved, bind, gets. by rewrite Hmobile. }
  rewrite Heq. cbn [final]. repeat split.
  intros x. change (tabPairs (set_issued (issued w) loaded)) with constructor.
  rewrite contains_int. unfold constructor. cbn [_keyedByDesktop _keyedByMobile].
  by rewrite get_empty_int.
Qed.

Lemma windows_onRemoved_resets_witness :
  contains (VInt 1) (tabPairs (final (windows_onRemoved (VInt 20) session)))
  = Return (VBool false)
      (tabPairs (final (windows_onRemoved (VInt 20) session))).
Proof.
  destruct (windows_onRemoved_resets session (VInt 20) eq_refl)
    as (_ & _ & _ & _ & _ & _ & _ & Hempty).
  exact (Hempty 1).
Defined.

(** *** Messages of the content script *)

Lemma runtime_onMessage_paired page w message sender_tab t :
  getCorrespondingTab sender_tab.["id"] (tabPairs w) = Return t (tabPairs w) ->
  truthy t = true ->
  runtime_onMessage page message sender_tab w
  = (if truthy message.["scrollPercentage"]
        && negb (strict_eq (getScrollLock page) (VString "on"))
     then chrome (console_log
            "Error relaying message: No corresponding tab to receive messsage") w
     else chrome (tabs_sendMessage t message) w).
Proof.
  intros Hpair Ht. unfold runtime_onMessage, bind.
  rewrite (on_tabPairs_read _ _ _ Hpair).
  rewrite !truthy_logical_and, truthy_logical_not, truthy_logical_and, Ht.
  cbn [truthy]. rewrite andb_true_r. by destruct (_ && _).
Qed.

(** C2: what the listener does for a message of a tab that has a pair.
    With scroll lock "on" every message is relayed to the paired tab, a
    message with a scroll percentage included; with scroll lock not "on" a
    message with a (truthy) scroll percentage is not relayed, the listener
    only logs; a message without one is relayed whatever the setting.  This
    is the reverse of what the comment of line 206 announces. *)
Theorem runtime_onMessage_relays_scroll_when_locked
    (page : backgroundPage) (w : background) (message sender_tab : object)
    (t : value)
    (Hpair : getCorrespondingTab sender_tab.["id"] (tabPairs w)
             = Return t (tabPairs w))
    (Ht : truthy t = true) :
  (strict_eq (getScrollLock page) (VString "on") = true ->
   calls_of (runtime_onMessage page message sender_tab) w
   = [tabs_sendMessage t message])
  /\ (strict_eq (getScrollLock page) (VString "on") = false ->
      truthy message.["scrollPercentage"] = true ->
      exists text,
        calls_of (runtime_onMessage page message sender_tab) w
        = [console_log text])
  /\ (truthy message.["scrollPercentage"] = false ->
      calls_of (runtime_onMessage page message sender_tab) w
      = [tabs_sendMessage t message]).
Proof.
  unfold calls_of. rewrite (runtime_onMessage_paired _ _ _ _ _ Hpair Ht).
  split; [|split].
  - intros ->. rewrite andb_false_r. apply (calls_of_chrome w).
  - intros -> ->. eexists. apply (calls_of_chrome w).
  - intros ->. apply (calls_of_chrome w).
Qed.

Lemma runtime_onMessage_relays_scroll_when_locked_witness :
  calls_of (runtime_onMessage lockedPage scrollMessage desktopTab) session
  = [tabs_sendMessage (VInt 2) scrollMessage].
Proof.
  apply (proj1 (runtime_onMessage_relays_scroll_when_locked
                  lockedPage session scrollMessage desktopTab (VInt 2)
                  eq_refl eq_refl)).
  reflexivity.
Defined.

(** *** Request headers *)

Lemma strict_eq_string_false v s : v <> VString s -> strict_eq v (VString s) = false.
Proof.
  intros Hne. destruct (strict_eq v (VString s)) eqn:Heq; [|done].
  by apply strict_eq_string in Heq.
Qed.

Lemma replaceUserAgent_first page (pre : list object) h post :
  Forall (fun x : object => x.["name"] <> VString "User-Agent") pre ->
  h.["name"] = VString "User-Agent" ->
  replaceUserAgent page (pre ++ h :: post)%list
  = (pre ++ set h (VString "value") (getDevice page).["ua"] :: post)%list.
Proof.
  intros Hpre Hh. induction Hpre as [|x pre Hx _ IH]; cbn [app replaceUserAgent].
  - by rewrite Hh.
  - by rewrite (strict_eq_string_false _ _ Hx), IH.
Qed.

Lemma replaceUserAgent_none page (headers : list object) :
  Forall (fun x : object => x.["name"] <> VString "User-Agent") headers ->
  replaceUserAgent page headers = headers.
Proof.
  induction 1 as [|x l Hx _ IH]; cbn [replaceUserAgent]; [done|].
  by rewrite (strict_eq_string_false _ _ Hx), IH.
Qed.

(** C9: for a request of a tab the store knows and that is not a desktop
    tab, the listener returns the headers with the value of the first header
    whose name is exactly [User-Agent] replaced by the device's user agent,
    every header before and after it as it was (and all of them as they
    were when no header has that name); for a request of any other tab it
    returns the headers as they were. *)
Theorem onBeforeSendHeaders_rewrites_first_user_agent
    (page : backgroundPage) (w : background) (tabId : value)
    (headers : list object) :
  (isMobilePage (tabPairs w) tabId ->
   webRequest_onBeforeSendHeaders page tabId headers w
   = Return (replaceUserAgent page headers) w
   /\ (forall pre h post,
          headers = (pre ++ h :: post)%list ->
          Forall (fun x : object => x.["name"] <> VString "User-Agent") pre ->
          h.["name"] = VString "User-Agent" ->
          replaceUserAgent page headers
          = (pre ++ set h (VString "value") (getDevice page).["ua"] :: post)%list)
   /\ (Forall (fun x : object => x.["name"] <> VString "User-Agent") headers ->
       replaceUserAgent page headers = headers))
  /\ (isInteger tabId = true ->
      ~ isMobilePage (tabPairs w) tabId ->
      webRequest_onBeforeSendHeaders page tabId headers w = Return headers w).
Proof.
  unfold isMobilePage. split.
  - intros [Hknown Hdesktop]. split; [|split].
    + unfold webRequest_onBeforeSendHeaders, bind.
      rewrite (on_tabPairs_read _ _ _ Hknown). cbn [truthy].
      by rewrite (on_tabPairs_read _ _ _ Hdesktop).
    + intros pre h post ->. apply replaceUserAgent_first.
    + apply replaceUserAgent_none.
  - intros Hint Hnot.
    destruct tabId as [| | |n| | | |]; try discriminate.
    destruct (getCorrespondingTab_returns n (tabPairs w)) as (t & _ & Hknown).
    pose proof (isDesktopTab_eq (VInt n) (tabPairs w)) as Hdesktop.
    rewrite Hknown, Hdesktop in Hnot.
    unfold webRequest_onBeforeSendHeaders, bind.
    rewrite (on_tabPairs_read _ _ _ Hknown). cbn [truthy].
    destruct (truthy t); [|done].
    rewrite (on_tabPairs_read _ _ _ Hdesktop).
    destruct (truthy (get _ _)); [done|]. by destruct Hnot.
Qed.

Lemma onBeforeSendHeaders_rewrites_first_user_agent_witness :
  webRequest_onBeforeSendHeaders lockedPage (VInt 2) requestHeaders session
  = Return (replaceUserAgent lockedPage requestHeaders) session.
Proof.
  apply (proj1 (onBeforeSendHeaders_rewrites_first_user_agent
                  lockedPage session (VInt 2) requestHeaders)).
  split; reflexivity.
Defined.

(** * Further properties of the store and of the listeners *)

(** ** The store *)

Lemma get_absent (o : object) (x : Z) :
  o !! toPropertyKey (VInt x) = None -> get o (VInt x) = VUndefined.
Proof. unfold get. intros ->. by rewrite key_not_inherited. Qed.

(** X1: for every store and every integer, [getCorrespondingTab] returns
    either a truthy value, and then [contains] is true, or exactly the
    boolean [false], and then [contains] is false: the falsy result is never
    [0] or [undefined]. *)
Theorem getCorrespondingTab_sentinel (this : MobileDesktopPairings) (x : Z) :
  exists t,
    getCorrespondingTab (VInt x) this = Return t this
    /\ (truthy t = true /\ contains (VInt x) this = Return (VBool true) this
        \/ t = VBool false
           /\ contains (VInt x) this = Return (VBool false) this).
Proof.
  eexists. split; [apply getCorrespondingTab_int|]. rewrite contains_int.
  destruct (truthy (get (_keyedByDesktop this) (VInt x))) eqn:Hd.
  - left. rewrite (logical_or_truthy _ (get _ _) Hd).
    by rewrite (logical_or_truthy _ _ Hd).
  - rewrite (logical_or_falsy _ (get _ _) Hd).
    destruct (truthy (get (_keyedByMobile this) (VInt x))) eqn:Hm.
    + left. by rewrite (logical_or_truthy _ _ Hm).
    + right. by rewrite (logical_or_falsy _ _ Hm).
Qed.

(** X2: an integer that is a key of neither object is unknown to every
    method: [getCorrespondingTab] returns [false], [contains] and
    [isDesktopTab] return false, and [removeTabPair] returns leaving the
    store as it was. *)
Theorem unknown_id (this : MobileDesktopPairings) (x : Z)
    (Hd : _keyedByDesktop this !! toPropertyKey (VInt x) = None)
    (Hm : _keyedByMobile this !! toPropertyKey (VInt x) = None) :
  getCorrespondingTab (VInt x) this = Return (VBool false) this
  /\ contains (VInt x) this = Return (VBool false) this
  /\ isDesktopTab (VInt x) this = Return (VBool false) this
  /\ removeTabPair (VInt x) this = Return tt this.
Proof.
  rewrite getCorrespondingTab_int, contains_int, isDesktopTab_eq.
  rewrite !(get_absent _ _ Hd), !(get_absent _ _ Hm).
  repeat split. by apply removeTabPair_unknown.
Qed.

Lemma unknown_id_witness :
  contains (VInt 5) (final (addPair (VInt 1) (VInt 2) constructor))
  = Return (VBool false) (final (addPair (VInt 1) (VInt 2) constructor)).
Proof.
  apply (unknown_id (final (addPair (VInt 1) (VInt 2) constructor)) 5);
    reflexivity.
Defined.

(** X3: [addPair(a, b)] changes nothing for any other integer [x]: what
    [getCorrespondingTab(x)], [contains(x)] and [isDesktopTab(x)] return is
    what they returned before. *)
Theorem addPair_frame (this : MobileDesktopPairings) (a b x : Z)
    (Ha : x <> a) (Hb : x <> b) :
  let this' := after (AddPair (VInt a) (VInt b)) this in
  returned (getCorrespondingTab (VInt x) this')
  = returned (getCorrespondingTab (VInt x) this)
  /\ returned (contains (VInt x) this') = returned (contains (VInt x) this)
  /\ returned (isDesktopTab (VInt x) this')
     = returned (isDesktopTab (VInt x) this).
Proof.
  unfold after, perform. rewrite addPair_int. cbn [final].
  rewrite !getCorrespondingTab_int, !contains_int, !isDesktopTab_eq.
  cbn [returned _keyedByDesktop _keyedByMobile].
  by rewrite !(get_set_ne _ a x), !(get_set_ne _ b x) by done.
Qed.

Lemma addPair_frame_witness :
  returned (contains (VInt 1)
              (after (AddPair (VInt 3) (VInt 4))
                 (final (addPair (VInt 1) (VInt 2) constructor))))
  = returned (contains (VInt 1) (final (addPair (VInt 1) (VInt 2) constructor))).
Proof.
  apply (addPair_frame (final (addPair (VInt 1) (VInt 2) constructor)) 3 4 1);
    lia.
Defined.

(** X4: [removeTabPair(a)] changes nothing for any other integer [x], the
    former partner of [a] included: what the three queries return for [x]
    is what they returned before. *)
Theorem removeTabPair_frame (this : MobileDesktopPairings) (a x : Z)
    (Ha : x <> a) :
  let this' := after (RemoveTabPair (VInt a)) this in
  returned (getCorrespondingTab (VInt x) this')
  = returned (getCorrespondingTab (VInt x) this)
  /\ returned (contains (VInt x) this') = returned (contains (VInt x) this)
  /\ returned (isDesktopTab (VInt x) this')
     = returned (isDesktopTab (VInt x) this).
Proof.
  unfold after, perform. rewrite removeTabPair_int. cbn [final].
  rewrite !getCorrespondingTab_int, !contains_int, !isDesktopTab_eq.
  cbn [returned _keyedByDesktop _keyedByMobile].
  by rewrite !(get_del_ne _ a x) by done.
Qed.

Lemma removeTabPair_frame_witness :
  returned (getCorrespondingTab (VInt 2)
              (after (RemoveTabPair (VInt 1))
                 (final (addPair (VInt 1) (VInt 2) constructor))))
  = returned (getCorrespondingTab (VInt 2)
                (final (addPair (VInt 1) (VInt 2) constructor))).
Proof.
  apply (removeTabPair_frame (final (addPair (VInt 1) (VInt 2) constructor)) 1 2).
  lia.
Defined.

(** X5: pairing two integers that are keys of neither object and then
    calling [removeTabPair] on each of them gives back exactly the store
    the calls started from. *)
Theorem addPair_then_remove_both (this : MobileDesktopPairings) (a b : Z)
    (Hda : _keyedByDesktop this !! toPropertyKey (VInt a) = None)
    (Hdb : _keyedByDesktop this !! toPropertyKey (VInt b) = None)
    (Hma : _keyedByMobile this !! toPropertyKey (VInt a) = None)
    (Hmb : _keyedByMobile this !! toPropertyKey (VInt b) = None) :
  (addPair (VInt a) (VInt b) ;; removeTabPair (VInt a) ;;
   removeTabPair (VInt b)) this
  = Return tt this.
Proof.
  unfold bind. rewrite addPair_int, !removeTabPair_int.
  cbn [_keyedByDesktop _keyedByMobile]. unfold del, set.
  rewrite delete_insert_eq, (delete_id _ _ Hda), (delete_id _ _ Hdb).
  rewrite (delete_delete (<[_:=_]> _)), delete_insert_eq.
  rewrite (delete_id _ _ Hmb), (delete_id _ _ Hma).
  by destruct this.
Qed.

Lemma addPair_then_remove_both_witness :
  (addPair (VInt 3) (VInt 4) ;; removeTabPair (VInt 3) ;;
   removeTabPair (VInt 4)) (final (addPair (VInt 1) (VInt 2) constructor))
  = Return tt (final (addPair (VInt 1) (VInt 2) constructor)).
Proof.
  apply (addPair_then_remove_both
           (final (addPair (VInt 1) (VInt 2) constructor)) 3 4); reflexivity.
Defined.

(** X6: after [addPair(a, b)], [isDesktopTab(a)] is true when [b] is not
    zero and false when [b] is zero, and when [a] and [b] differ
    [isDesktopTab(b)] is what it was before the call: the second argument
    is not made a desktop tab. *)
Theorem isDesktopTab_direction (this : MobileDesktopPairings) (a b : Z) :
  let this' := after (AddPair (VInt a) (VInt b)) this in
  isDesktopTab (VInt a) this' = Return (VBool (negb (b =? 0)%Z)) this'
  /\ (a <> b ->
      returned (isDesktopTab (VInt b) this')
      = returned (isDesktopTab (VInt b) this)).
Proof.
  unfold after, perform. rewrite addPair_int. cbn [final].
  rewrite !isDesktopTab_eq. cbn [returned _keyedByDesktop].
  rewrite get_set_eq. split; [done|].
  intros Hab. by rewrite get_set_ne.
Qed.

Lemma isDesktopTab_direction_witness :
  returned (isDesktopTab (VInt 2) (after (AddPair (VInt 1) (VInt 2)) constructor))
  = returned (isDesktopTab (VInt 2) constructor).
Proof.
  apply (proj2 (isDesktopTab_direction constructor 1 2)). lia.
Defined.

Lemma integer_entries_empty : integer_entries ∅.
Proof. intros k v. by rewrite lookup_empty. Qed.

Lemma integer_entries_set (o : object) (a b : Z) :
  integer_entries o -> integer_entries (set o (VInt a) (VInt b)).
Proof.
  intros Ho k v. unfold set. rewrite lookup_insert.
  case_decide as Hk; [|by apply Ho].
  intros [= <-]. rewrite <-Hk. eauto.
Qed.

Lemma integer_entries_del (o : object) (x : value) :
  integer_entries o -> integer_entries (del o x).
Proof.
  intros Ho k v. unfold del. rewrite lookup_delete.
  case_decide; [done|by apply Ho].
Qed.

Lemma integer_entries_get (o : object) (x : Z) :
  integer_entries o ->
  get o (VInt x) = VUndefined \/ exists m : Z, get o (VInt x) = VInt m.
Proof.
  intros Ho. unfold get. rewrite key_not_inherited.
  destruct (o !! toPropertyKey (VInt x)) as [v|] eqn:Hv; [|by left].
  right. by destruct (Ho _ _ Hv) as [_ ?].
Qed.

Lemma integer_store_after this op :
  integer_store this -> integer_store (after op this).
Proof.
  intros [Hd Hm]. destruct op as [d m|x|].
  - destruct (isInteger d && isInteger m) eqn:Hint.
    2:{ by rewrite after_addPair_non_integer. }
    destruct d as [| | |a| | | |]; try discriminate.
    destruct m as [| | |b| | | |]; try discriminate.
    unfold after, perform. rewrite addPair_int.
    split; by apply integer_entries_set.
  - destruct (isInteger x) eqn:Hint.
    2:{ by rewrite after_removeTabPair_non_integer. }
    destruct x as [| | |x| | | |]; try discriminate.
    unfold after, perform. rewrite removeTabPair_int.
    split; by apply integer_entries_del.
  - split; apply integer_entries_empty.
Qed.

(** X7: the integer guards keep everything else out of the store: in every
    store reachable from a new one by calls of [addPair], [removeTabPair]
    and [clearPairings], with any arguments, every key of both objects is
    the key of an integer and every stored value is an integer; so
    [getCorrespondingTab] of an integer returns [false] or an integer
    other than zero. *)
Theorem reachable_integer_store (this : MobileDesktopPairings)
    (Hreach : reachable this) :
  integer_store this
  /\ (forall x : Z, exists t,
        getCorrespondingTab (VInt x) this = Return t this
        /\ (t = VBool false \/ exists n : Z, n <> 0 /\ t = VInt n)).
Proof.
  assert (integer_store this) as Hstore.
  { induction Hreach as [|op this _ IH].
    - split; apply integer_entries_empty.
    - by apply integer_store_after. }
  split; [done|]. intros x. destruct Hstore as [Hd Hm].
  assert (forall o, integer_entries o ->
            truthy (get o (VInt x)) = false
            \/ exists n : Z, n <> 0 /\ get o (VInt x) = VInt n) as Hget.
  { intros o Ho.
    destruct (integer_entries_get o x Ho) as [->|[n Hn]]; [by left|].
    rewrite Hn. destruct (decide (n = 0)) as [->|Hne]; [by left|right; eauto]. }
  eexists. split; [apply getCorrespondingTab_int|].
  destruct (Hget _ Hd) as [Hfd|(n & Hn & Heq)].
  - rewrite (logical_or_falsy _ (get _ _) Hfd).
    destruct (Hget _ Hm) as [Hfm|(n & Hn & Heq)].
    + left. by rewrite (logical_or_falsy _ _ Hfm).
    + right. exists n. split; [done|]. rewrite Heq.
      by rewrite (logical_or_truthy (VInt n)) by by apply truthy_int.
  - right. exists n. split; [done|]. rewrite Heq.
    rewrite (logical_or_truthy (VInt n) (get _ _)) by by apply truthy_int.
    by rewrite (logical_or_truthy (VInt n)) by by apply truthy_int.
Qed.

Lemma reachable_integer_store_witness :
  integer_store
    (after (AddPair (VString "x") (VInt 3))
       (after (AddPair (VInt 1) (VInt 2)) constructor)).
Proof.
  apply (reachable_integer_store
           (after (AddPair (VString "x") (VInt 3))
              (after (AddPair (VInt 1) (VInt 2)) constructor))).
  apply reachable_call, reachable_call, reachable_new.
Defined.

(** ** Tab removed *)

Lemma tabs_onRemoved_int w (n : Z) t :
  getCorrespondingTab (VInt n) (tabPairs w) = Return t (tabPairs w) ->
  tabs_onRemoved (VInt n) w
  = (if truthy t then
       Return tt
         (set_issued (issued w ++ [tabs_remove t])
            (set_tabPairs (after (RemoveTabPair (VInt n)) (tabPairs w)) w))
     else Return tt w).
Proof.
  intros Ht. unfold tabs_onRemoved, bind.
  rewrite (on_tabPairs_read _ _ _ Ht). by destruct (truthy t).
Qed.

(** X8: the removal of a tab that has no pair changes nothing and makes no
    call; and if the identifier is not an integer the listener throws, again
    with nothing changed. *)
Theorem tabs_onRemoved_unpaired (w : background) (removedTabId : value) :
  (contains removedTabId (tabPairs w) = Return (VBool false) (tabPairs w) ->
   tabs_onRemoved removedTabId w = Return tt w)
  /\ (isInteger removedTabId = false ->
      exists e, InvalidIdentifier e
        /\ tabs_onRemoved removedTabId w = Throw e w).
Proof.
  split.
  - destruct (isInteger removedTabId) eqn:Hint.
    2:{ unfold contains. by rewrite Hint. }
    destruct removedTabId as [| | |n| | | |]; try discriminate.
    destruct (getCorrespondingTab_returns n (tabPairs w)) as (t & Ht & Hc).
    rewrite Hc, (tabs_onRemoved_int _ _ _ Ht). by intros [= ->].
  - intros Hint. exists (Error "Given Tab Id is not an integer").
    split; [by right|]. unfold tabs_onRemoved, bind.
    rewrite (on_tabPairs_throw _ _ (Error "Given Tab Id is not an integer"));
      [done|].
    unfold getCorrespondingTab. by rewrite Hint.
Qed.

Lemma tabs_onRemoved_unpaired_witness :
  tabs_onRemoved (VInt 5) session = Return tt session.
Proof.
  apply (proj1 (tabs_onRemoved_unpaired session (VInt 5))). reflexivity.
Defined.

(** X9: the removal of a tab that has a pair makes exactly one call,
    [chrome.tabs.remove] of the paired tab, and calls [removeTabPair] on the
    removed tab: the removed tab is then in no pair, and the window ids, the
    guard and the focused window are as they were. *)
Theorem tabs_onRemoved_paired (w : background) (x : Z) (t : value)
    (Hpair : getCorrespondingTab (VInt x) (tabPairs w)
             = Return t (tabPairs w))
    (Ht : truthy t = true) :
  let w' := final (tabs_onRemoved (VInt x) w) in
  tabs_onRemoved (VInt x) w = Return tt w'
  /\ calls_of (tabs_onRemoved (VInt x)) w = [tabs_remove t]
  /\ tabPairs w' = after (RemoveTabPair (VInt x)) (tabPairs w)
  /\ contains (VInt x) (tabPairs w') = Return (VBool false) (tabPairs w')
  /\ variables (set_tabPairs (tabPairs w) w') = variables w.
Proof.
  unfold calls_of. rewrite (tabs_onRemoved_int _ _ _ Hpair), Ht.
  cbn [final]. split; [done|]. split; [apply drop_app_length|].
  split; [done|]. split; [|by destruct w].
  cbn [tabPairs set_issued set_tabPairs]. unfold after, perform.
  rewrite removeTabPair_int. cbn [final]. rewrite contains_int.
  cbn [_keyedByDesktop _keyedByMobile]. by rewrite !get_del_eq.
Qed.

Lemma tabs_onRemoved_paired_witness :
  calls_of (tabs_onRemoved (VInt 1)) session = [tabs_remove (VInt 2)].
Proof.
  apply (tabs_onRemoved_paired session 1 (VInt 2)); reflexivity.
Defined.

Lemma truthy_logical_or a b : truthy (logical_or a b) = truthy a || truthy b.
Proof. unfold logical_or. by destruct (truthy a) eqn:Ha; rewrite ?Ha. Qed.

Lemma calls_of_bind {A B} (m : Eff background A) (k : A -> Eff background B)
    w a w' l1 l2 :
  m w = Return a w' ->
  issued w' = (issued w ++ l1)%list ->
  issued (final (k a w')) = (issued w' ++ l2)%list ->
  calls_of (bind m k) w = (l1 ++ l2)%list.
Proof.
  intros Hm H1 H2. unfold calls_of, bind. rewrite Hm, H2, H1.
  rewrite <-(assoc_L (++)). apply drop_app_length.
Qed.

(** X10: closing one tab of a pair closes the pair in two steps.  After
    [addPair(a, b)] with [a] and [b] distinct and not zero, the removal
    event of [a] makes the listener call [chrome.tabs.remove(b)]; the
    removal event of [b] that this call brings about finds the entry left
    behind from [b] to [a], removes it and makes one more
    [chrome.tabs.remove] call; after the two events neither [a] nor [b] is
    contained in the store. *)
Theorem tabs_onRemoved_cascade (w : background) (a b : Z)
    (Hab : a <> b) (Ha : a <> 0) (Hb : b <> 0) :
  let w0 := set_tabPairs (after (AddPair (VInt a) (VInt b)) (tabPairs w)) w in
  let w' := final ((tabs_onRemoved (VInt a) ;; tabs_onRemoved (VInt b)) w0) in
  (exists t,
      calls_of (tabs_onRemoved (VInt a) ;; tabs_onRemoved (VInt b)) w0
      = [tabs_remove (VInt b); tabs_remove t])
  /\ contains (VInt a) (tabPairs w') = Return (VBool false) (tabPairs w')
  /\ contains (VInt b) (tabPairs w') = Return (VBool false) (tabPairs w').
Proof.
  intros w0.
  pose proof (truthy_int a Ha) as Hta. pose proof (truthy_int b Hb) as Htb.
  assert (getCorrespondingTab (VInt a) (tabPairs w0)
          = Return (VInt b) (tabPairs w0)) as H1.
  { rewrite getCorrespondingTab_int. unfold w0, after, perform.
    rewrite addPair_int. cbn [tabPairs set_tabPairs final _keyedByDesktop].
    rewrite get_set_eq, (logical_or_truthy (VInt b) (get _ _) Htb).
    by rewrite (logical_or_truthy (VInt b) _ Htb). }
  pose proof (tabs_onRemoved_int _ _ _ H1) as Hrun1. rewrite Htb in Hrun1.
  set (w1 := set_issued (issued w0 ++ [tabs_remove (VInt b)])
               (set_tabPairs (after (RemoveTabPair (VInt a)) (tabPairs w0)) w0))
    in Hrun1.
  destruct (getCorrespondingTab_returns b (tabPairs w1)) as (t & H2 & _).
  assert (truthy t = true) as Ht.
  { rewrite getCorrespondingTab_int in H2. injection H2 as <-.
    rewrite !truthy_logical_or. unfold w1, w0, after, perform.
    cbn [tabPairs set_issued set_tabPairs].
    rewrite !(get_del_ne _ a b), get_set_eq, Hta by done.
    by rewrite orb_true_r. }
  pose proof (tabs_onRemoved_int _ _ _ H2) as Hrun2. rewrite Ht in Hrun2.
  split; [|split].
  - exists t.
    apply (calls_of_bind _ _ w0 tt w1 [tabs_remove (VInt b)] [tabs_remove t]);
      [done|done|by rewrite Hrun2].
  - unfold bind. rewrite Hrun1, Hrun2. cbn [final]. rewrite contains_int.
    unfold w1, w0, after, perform.
    cbn [tabPairs set_issued set_tabPairs].
    rewrite addPair_int. cbn [final]. rewrite removeTabPair_int. cbn [final].
    rewrite removeTabPair_int. cbn [final _keyedByDesktop _keyedByMobile].
    by rewrite !(get_del_ne _ b a), !get_del_eq.
  - unfold bind. rewrite Hrun1, Hrun2. cbn [final]. rewrite contains_int.
    unfold w1, w0, after, perform.
    cbn [tabPairs set_issued set_tabPairs].
    rewrite addPair_int. cbn [final]. rewrite removeTabPair_int. cbn [final].
    rewrite removeTabPair_int. cbn [final _keyedByDesktop _keyedByMobile].
    by rewrite !get_del_eq.
Qed.

Lemma tabs_onRemoved_cascade_witness :
  contains (VInt 4)
    (tabPairs
       (final ((tabs_onRemoved (VInt 3) ;; tabs_onRemoved (VInt 4))
                 (set_tabPairs
                    (after (AddPair (VInt 3) (VInt 4)) (tabPairs session))
                    session))))
  = Return (VBool false)
      (tabPairs
         (final ((tabs_onRemoved (VInt 3) ;; tabs_onRemoved (VInt 4))
                   (set_tabPairs
                      (after (AddPair (VInt 3) (VInt 4)) (tabPairs session))
                      session)))).
Proof.
  destruct (tabs_onRemoved_cascade session 3 4) as (_ & _ & H); [lia..|].
  exact H.
Defined.

(** ** Tab activated *)

Lemma tabs_onActivated_int w (activeInfo : object) (n : Z) t :
  activeInfo.["tabId"] = VInt n ->
  getCorrespondingTab (VInt n) (tabPairs w) = Return t (tabPairs w) ->
  tabs_onActivated activeInfo w
  = (if truthy t
        && (strict_eq activeInfo.["windowId"] (desktopWindowId w)
            || strict_eq activeInfo.["windowId"] (mobileWindowId w))
     then chrome (tabs_update t (selected_is true) None) w
     else Return tt w).
Proof.
  intros Hid Ht. unfold tabs_onActivated, bind. rewrite Hid.
  rewrite (on_tabPairs_read _ _ _ Ht). unfold gets. by destruct (_ && _).
Qed.

(** X11: the activation of a tab makes the listener call
    [chrome.tabs.update] with [selected: true] exactly when [contains] is
    true of the activated tab, that is when its desktop-side or mobile-side
    entry holds a truthy id, and the event comes from the desktop or the
    mobile window.  The tab selected is the one the store holds for the
    activated tab: its desktop-side entry when that is not zero, otherwise
    its mobile-side entry.  In every other case, a tab whose only entry
    holds 0 included, the listener makes no call. *)
Theorem tabs_onActivated_selects (w : background) (activeInfo : object) :
  (has_pair (tabPairs w) activeInfo.["tabId"]
   /\ (strict_eq activeInfo.["windowId"] (desktopWindowId w) = true
       \/ strict_eq activeInfo.["windowId"] (mobileWindowId w) = true) ->
   exists t,
     getCorrespondingTab activeInfo.["tabId"] (tabPairs w)
     = Return t (tabPairs w)
     /\ calls_of (tabs_onActivated activeInfo) w
        = [tabs_update t (selected_is true) None])
  /\ (~ (has_pair (tabPairs w) activeInfo.["tabId"]
         /\ (strict_eq activeInfo.["windowId"] (desktopWindowId w) = true
             \/ strict_eq activeInfo.["windowId"] (mobileWindowId w) = true)) ->
      calls_of (tabs_onActivated activeInfo) w = [])
  /\ (has_pair (tabPairs w) activeInfo.["tabId"] ->
      exists x : Z, activeInfo.["tabId"] = VInt x
        /\ (truthy (get (_keyedByDesktop (tabPairs w)) (VInt x)) = true
            \/ truthy (get (_keyedByMobile (tabPairs w)) (VInt x)) = true))
  /\ (forall x partner : Z,
        activeInfo.["tabId"] = VInt x -> partner <> 0 ->
        get (_keyedByDesktop (tabPairs w)) (VInt x) = VInt partner
        \/ (truthy (get (_keyedByDesktop (tabPairs w)) (VInt x)) = false
            /\ get (_keyedByMobile (tabPairs w)) (VInt x) = VInt partner) ->
        has_pair (tabPairs w) activeInfo.["tabId"]
        /\ (strict_eq activeInfo.["windowId"] (desktopWindowId w) = true
            \/ strict_eq activeInfo.["windowId"] (mobileWindowId w) = true ->
            calls_of (tabs_onActivated activeInfo) w
            = [tabs_update (VInt partner) (selected_is true) None]))
  /\ (forall x : Z,
        activeInfo.["tabId"] = VInt x ->
        get (_keyedByDesktop (tabPairs w)) (VInt x) = VInt 0 ->
        truthy (get (_keyedByMobile (tabPairs w)) (VInt x)) = false ->
        calls_of (tabs_onActivated activeInfo) w = []).
Proof.
  unfold has_pair. split; [|split; [|split; [|split]]].
  - destruct (isInteger activeInfo.["tabId"]) eqn:Hint.
    2:{ unfold contains. rewrite Hint. by intros [? _]. }
    destruct (activeInfo.["tabId"]) as [| | |n| | | |] eqn:Hid; try discriminate.
    destruct (getCorrespondingTab_returns n (tabPairs w)) as (t & Ht & Hc).
    rewrite Hc. unfold calls_of. rewrite (tabs_onActivated_int _ _ _ _ Hid Ht).
    intros [[= Hpair] Hwin]. rewrite Hpair.
    apply orb_true_iff in Hwin. rewrite Hwin. cbn [andb].
    exists t. split; [done|]. apply (calls_of_chrome w).
  - destruct (isInteger activeInfo.["tabId"]) eqn:Hint.
    2:{ intros _. apply calls_of_unchanged. unfold tabs_onActivated, bind.
        rewrite (on_tabPairs_throw _ _ (Error "Given Tab Id is not an integer"));
          [done|].
        unfold getCorrespondingTab. by rewrite Hint. }
    destruct (activeInfo.["tabId"]) as [| | |n| | | |] eqn:Hid; try discriminate.
    destruct (getCorrespondingTab_returns n (tabPairs w)) as (t & Ht & Hc).
    rewrite Hc. unfold calls_of. rewrite (tabs_onActivated_int _ _ _ _ Hid Ht).
    intros Hnot. destruct (_ && _) eqn:Hcond; [|apply drop_all].
    apply andb_true_iff in Hcond as [Hpair Hwin].
    destruct Hnot. rewrite Hpair. by apply orb_true_iff in Hwin.
  - apply contains_true_entries.
  - intros x partner Hid Hp Hentry. rewrite Hid.
    destruct (lookup_by_entries _ _ _ Hp Hentry) as [Ht Hc].
    split; [done|]. intros Hwin. apply orb_true_iff in Hwin. unfold calls_of.
    rewrite (tabs_onActivated_int _ _ _ _ Hid Ht), Hwin.
    rewrite (truthy_int partner Hp). cbn [andb]. apply (calls_of_chrome w).
  - intros x Hid Hd Hm. unfold calls_of.
    rewrite (tabs_onActivated_int _ _ _ _ Hid (getCorrespondingTab_int _ _)).
    rewrite Hd, (logical_or_falsy (VInt 0)) by done.
    rewrite (logical_or_falsy _ _ Hm). cbn [truthy andb]. apply drop_all.
Qed.

Lemma tabs_onActivated_selects_witness :
  calls_of (tabs_onActivated activationOfTwo) session
  = [tabs_update (VInt 1) (selected_is true) None].
Proof.
  destruct (tabs_onActivated_selects session activationOfTwo)
    as (_ & _ & _ & Htarget & _).
  destruct (Htarget 2 1 eq_refl) as [_ Hcall];
    [lia | right; split; reflexivity |].
  apply Hcall. right. reflexivity.
Defined.

(** ** Messages from a tab without a pair *)

(** X12: a message from a tab that has no pair is never relayed, whatever
    the message and the scroll-lock setting: the only call the listener
    makes is one [console.log]. *)
Theorem runtime_onMessage_unpaired
    (page : backgroundPage) (w : background) (message sender_tab : object)
    (Hnone : contains sender_tab.["id"] (tabPairs w)
             = Return (VBool false) (tabPairs w)) :
  exists text,
    calls_of (runtime_onMessage page message sender_tab) w = [console_log text].
Proof.
  destruct (isInteger sender_tab.["id"]) eqn:Hint.
  2:{ unfold contains in Hnone. by rewrite Hint in Hnone. }
  destruct (sender_tab.["id"]) as [| | |n| | | |] eqn:Hid; try discriminate.
  destruct (getCorrespondingTab_returns n (tabPairs w)) as (t & Ht & Hc).
  rewrite Hc in Hnone. injection Hnone as Hfalse.
  eexists. unfold calls_of, runtime_onMessage, bind. rewrite Hid.
  rewrite (on_tabPairs_read _ _ _ Ht).
  rewrite truthy_logical_and, Hfalse, andb_false_r.
  apply (calls_of_chrome w).
Qed.

Lemma runtime_onMessage_unpaired_witness :
  exists text,
    calls_of (runtime_onMessage lockedPage scrollMessage userTab) session
    = [console_log text].
Proof.
  apply runtime_onMessage_unpaired. reflexivity.
Defined.

(** ** What the listeners leave alone *)

Lemma on_tabPairs_getCorrespondingTab v w :
  (exists t, on_tabPairs (getCorrespondingTab v) w = Return t w)
  \/ (exists e, on_tabPairs (getCorrespondingTab v) w = Throw e w).
Proof.
  destruct (isInteger v) eqn:Hint.
  - left. destruct v as [| | |n| | | |]; try discriminate. eexists.
    apply on_tabPairs_read, getCorrespondingTab_int.
  - right. eexists. apply on_tabPairs_throw.
    unfold getCorrespondingTab. by rewrite Hint.
Qed.

Lemma variables_chrome c w : variables (final (chrome c w)) = variables w.
Proof. by destruct w. Qed.

(** X13: the listeners for tab updates, tab activations and messages never
    change the store, the window ids, the guard or the focused window,
    whatever they are given and whether they return or throw: at most they
    add a call to the log.  The request listener changes nothing at all and
    makes no call. *)
Theorem listeners_keep_variables (w : background) :
  (forall tabId changeInfo tab,
      variables (final (tabs_onUpdated tabId changeInfo tab w)) = variables w)
  /\ (forall activeInfo,
         variables (final (tabs_onActivated activeInfo w)) = variables w)
  /\ (forall page message sender_tab,
         variables (final (runtime_onMessage page message sender_tab w))
         = variables w)
  /\ (forall page tabId headers,
         final (webRequest_onBeforeSendHeaders page tabId headers w) = w).
Proof.
  split; [|split; [|split]].
  - intros tabId changeInfo tab. unfold tabs_onUpdated, bind.
    destruct (on_tabPairs_getCorrespondingTab tabId w) as [[t ->]|[e ->]];
      [|done].
    unfold gets. destruct (truthy _); [apply variables_chrome|done].
  - intros activeInfo. unfold tabs_onActivated, bind.
    destruct (on_tabPairs_getCorrespondingTab activeInfo.["tabId"] w)
      as [[t ->]|[e ->]]; [|done].
    unfold gets. destruct (_ && _); [apply variables_chrome|done].
  - intros page message sender_tab. unfold runtime_onMessage, bind.
    destruct (on_tabPairs_getCorrespondingTab sender_tab.["id"] w)
      as [[t ->]|[e ->]]; [|done].
    destruct (truthy _); apply variables_chrome.
  - intros page tabId headers. unfold webRequest_onBeforeSendHeaders, bind.
    destruct (isInteger tabId) eqn:Hint.
    + destruct tabId as [| | |n| | | |]; try discriminate.
      destruct (getCorrespondingTab_returns n (tabPairs w)) as (t & _ & Hc).
      rewrite (on_tabPairs_read _ _ _ Hc). cbn [truthy].
      destruct (truthy t); [|done].
      rewrite (on_tabPairs_read _ _ _ (isDesktopTab_eq _ _)).
      unfold ret. by destruct (truthy (logical_not _)).
    + rewrite (on_tabPairs_throw _ _ (Error "Given Tab Id is not an integer"));
        [done|].
      unfold contains. by rewrite Hint.
Qed.

(** ** A mirror creation from start to end *)

Lemma run_callback_updated_int w from (user programmatic answer : object) (u p : Z) :
  user.["id"] = VInt u -> programmatic.["id"] = VInt p ->
  run_callback (updated from user programmatic) answer w
  = Return tt
      (set_newTabBeingCreated false
         (set_tabPairs
            (after (match from with
                    | FromDesktop => AddPair (VInt u) (VInt p)
                    | FromMobile => AddPair (VInt p) (VInt u)
                    end) (tabPairs w)) w)).
Proof.
  intros Hu Hp. destruct from; unfold run_callback, bind, on_tabPairs;
    rewrite Hu, Hp, addPair_int; reflexivity.
Qed.

(** X14: a tab opened by the user in the desktop or in the mobile window,
    with the guard clear, is mirrored in three steps: the listener asks for
    a tab in the other window; the callback of that call sends the new tab
    to the URL of the user's tab; the callback of that second call records
    the pair and clears the guard.  The tab of the desktop window is the
    first argument of [addPair] in both cases, and the window ids and the
    focused window are as they were. *)
Theorem mirror_creation_completes
    (w : background)
    (newUserTab newProgrammaticTab updatedProgrammaticTab : object) (u p : Z)
    (Hguard : newTabBeingCreated w = false)
    (Hu : newUserTab.["id"] = VInt u)
    (Hp : newProgrammaticTab.["id"] = VInt p)
    (Hwin : strict_eq newUserTab.["windowId"] (desktopWindowId w) = true
            \/ strict_eq newUserTab.["windowId"] (mobileWindowId w) = true) :
  exists windowId from,
    let cb := created from newUserTab newUserTab.["url"] in
    let cb' := updated from newUserTab newProgrammaticTab in
    let w1 := final (tabs_onCreated newUserTab w) in
    let w2 := final (run_callback cb newProgrammaticTab w1) in
    let w3 := final (run_callback cb' updatedProgrammaticTab w2) in
    calls_of (tabs_onCreated newUserTab) w = [tabs_create windowId cb]
    /\ calls_of (run_callback cb newProgrammaticTab) w1
       = [tabs_update (VInt p) (url_is newUserTab.["url"]) (Some cb')]
    /\ calls_of (run_callback cb' updatedProgrammaticTab) w2 = []
    /\ newTabBeingCreated w3 = false
    /\ (strict_eq newUserTab.["windowId"] (desktopWindowId w) = true ->
        windowId = mobileWindowId w
        /\ tabPairs w3 = after (AddPair (VInt u) (VInt p)) (tabPairs w))
    /\ (strict_eq newUserTab.["windowId"] (desktopWindowId w) = false ->
        windowId = desktopWindowId w
        /\ tabPairs w3 = after (AddPair (VInt p) (VInt u)) (tabPairs w))
    /\ variables (set_tabPairs (tabPairs w) w3) = variables w.
Proof.
  assert (exists windowId from,
    tabs_onCreated newUserTab w
    = Return tt
        (set_issued
           (issued w
            ++ [tabs_create windowId (created from newUserTab newUserTab.["url"])])
           (set_newTabBeingCreated true w))
    /\ (strict_eq newUserTab.["windowId"] (desktopWindowId w) = true ->
        windowId = mobileWindowId w /\ from = FromDesktop)
    /\ (strict_eq newUserTab.["windowId"] (desktopWindowId w) = false ->
        windowId = desktopWindowId w /\ from = FromMobile))
    as (windowId & from & Hrun & Hdesk & Hmob).
  { unfold tabs_onCreated, bind, gets. rewrite Hguard. cbn [negb andb].
    destruct (strict_eq _ (desktopWindowId w)) eqn:Hd.
    - by exists (mobileWindowId w), FromDesktop.
    - destruct Hwin as [Hwin|Hwin]; [done|]. rewrite Hwin.
      by exists (desktopWindowId w), FromMobile. }
  exists windowId, from. intros cb cb' w1 w2 w3.
  assert (w1 = set_issued (issued w ++ [tabs_create windowId cb])
                 (set_newTabBeingCreated true w)) as Hw1
    by (unfold w1; by rewrite Hrun).
  assert (w2 = set_issued
                 (issued w1
                  ++ [tabs_update (VInt p) (url_is newUserTab.["url"]) (Some cb')])
                 w1) as Hw2.
  { unfold w2, cb, run_callback, chrome, modify. by rewrite Hp. }
  assert (w3 = set_newTabBeingCreated false
                 (set_tabPairs
                    (after (match from with
                            | FromDesktop => AddPair (VInt u) (VInt p)
                            | FromMobile => AddPair (VInt p) (VInt u)
                            end) (tabPairs w2)) w2)) as Hw3.
  { unfold w3, cb'. by rewrite (run_callback_updated_int _ _ _ _ _ u p). }
  split; [|split; [|split; [|split; [|split; [|split]]]]].
  - unfold calls_of. fold w1. rewrite Hw1. apply drop_app_length.
  - unfold calls_of. fold w2. rewrite Hw2. apply drop_app_length.
  - unfold calls_of. fold w3. rewrite Hw3. apply drop_all.
  - by rewrite Hw3.
  - intros Hd. destruct (Hdesk Hd) as [-> Hfrom]. split; [done|].
    rewrite Hw3, Hw2, Hw1, Hfrom. reflexivity.
  - intros Hd. destruct (Hmob Hd) as [-> Hfrom]. split; [done|].
    rewrite Hw3, Hw2, Hw1, Hfrom. reflexivity.
  - rewrite Hw3, Hw2, Hw1. unfold variables, set_issued, set_tabPairs,
      set_newTabBeingCreated. cbn [tabPairs desktopWindowId mobileWindowId
      newTabBeingCreated focusedWindowId issued]. by rewrite Hguard.
Qed.

Lemma mirror_creation_completes_witness :
  exists windowId from,
    calls_of (tabs_onCreated userTab) session
    = [tabs_create windowId (created from userTab userTab.["url"])].
Proof.
  destruct (mirror_creation_completes session userTab mirrorTab mirrorTab 8 9
              eq_refl eq_refl eq_refl (or_introl eq_refl))
    as (windowId & from & Hcalls & _).
  exists windowId, from. exact Hcalls.
Defined.

(** X15: when the identifier of either tab is not an integer, the callback
    that should record the pair throws before it clears the guard: nothing
    is recorded, the guard keeps its value, and if it was set every later
    tab creation is ignored. *)
Theorem guard_stays_set_on_throw
    (w : background) (from : origin)
    (newUserTab newProgrammaticTab updatedProgrammaticTab : object)
    (Hid : isInteger newUserTab.["id"] = false
           \/ isInteger newProgrammaticTab.["id"] = false) :
  (exists e, InvalidIdentifier e
     /\ run_callback (updated from newUserTab newProgrammaticTab)
          updatedProgrammaticTab w
        = Throw e w)
  /\ (newTabBeingCreated w = true ->
      forall later,
        tabs_onCreated later
          (final (run_callback (updated from newUserTab newProgrammaticTab)
                    updatedProgrammaticTab w))
        = Return tt w).
Proof.
  assert (run_callback (updated from newUserTab newProgrammaticTab)
            updatedProgrammaticTab w
          = Throw (Error "Tried to insert non-integer into MobileDesktopPairings")
              w) as Hthrow.
  { destruct from; unfold run_callback, bind;
      rewrite (on_tabPairs_throw _ _
                 (Error "Tried to insert non-integer into MobileDesktopPairings"));
      try done; apply addPair_non_integer; tauto. }
  split.
  - eexists. split; [by left|done].
  - intros Hguard later. rewrite Hthrow. cbn [final].
    by apply tabs_onCreated_ignored; left.
Qed.

Lemma guard_stays_set_on_throw_witness :
  exists e, InvalidIdentifier e
    /\ run_callback (updated FromDesktop userTab {[ "id" := VString "9" ]})
         mirrorTab session
       = Throw e session.
Proof.
  refine (proj1 (guard_stays_set_on_throw session FromDesktop userTab
                   {[ "id" := VString "9" ]} mirrorTab _)).
  right. reflexivity.
Defined.

(** ** The rewritten headers *)

Lemma name_after_set_value (h : object) (x : value) :
  (set h (VString "value") x).["name"] = h.["name"].
Proof. unfold get, set. cbn [toPropertyKey]. by rewrite lookup_insert_ne. Qed.

(** X16: rewriting the user agent keeps the number of headers, their order
    and every header name, and rewriting twice gives what rewriting once
    gives. *)
Theorem replaceUserAgent_shape (page : backgroundPage) (headers : list object) :
  length (replaceUserAgent page headers) = length headers
  /\ header_names (replaceUserAgent page headers) = header_names headers
  /\ replaceUserAgent page (replaceUserAgent page headers)
     = replaceUserAgent page headers.
Proof.
  induction headers as [|h rest (IHlen & IHnames & IHtwice)]; [done|].
  cbn [replaceUserAgent].
  destruct (strict_eq h.["name"] (VString "User-Agent")) eqn:Hname.
  - cbn [length header_names map replaceUserAgent].
    rewrite name_after_set_value, Hname.
    repeat split. unfold set. by rewrite insert_insert_eq.
  - cbn [length header_names map replaceUserAgent]. rewrite Hname.
    unfold header_names in IHnames. by rewrite IHlen, IHnames, IHtwice.
Qed.

(** ** Starting and ending a session *)

Lemma mirrorDesktopWindow_created_int w
    (desktopWindow desktopActiveTab mobileWindow mobileWindow_tab0 : object)
    (d m : Z) :
  desktopActiveTab.["id"] = VInt d -> mobileWindow_tab0.["id"] = VInt m ->
  mirrorDesktopWindow_created desktopWindow desktopActiveTab mobileWindow
    mobileWindow_tab0 w
  = Return tt
      (set_mobileWindowId mobileWindow.["id"]
         (set_desktopWindowId desktopWindow.["id"]
            (set_tabPairs (after (AddPair (VInt d) (VInt m)) (tabPairs w)) w))).
Proof.
  intros Hd Hm. unfold mirrorDesktopWindow_created, bind, on_tabPairs.
  by rewrite Hd, Hm, addPair_int.
Qed.

(** X17: the callback that ends the start of a session records the first
    pair, desktop tab first, and then the two window ids, and touches
    nothing else; but when the identifier of either tab is not an integer
    it throws before the window ids are assigned, so nothing at all is
    recorded. *)
Theorem mirrorDesktopWindow_created_records
    (w : background)
    (desktopWindow desktopActiveTab mobileWindow mobileWindow_tab0 : object) :
  (forall d m : Z,
      desktopActiveTab.["id"] = VInt d -> mobileWindow_tab0.["id"] = VInt m ->
      mirrorDesktopWindow_created desktopWindow desktopActiveTab mobileWindow
        mobileWindow_tab0 w
      = Return tt
          (set_mobileWindowId mobileWindow.["id"]
             (set_desktopWindowId desktopWindow.["id"]
                (set_tabPairs (after (AddPair (VInt d) (VInt m)) (tabPairs w))
                   w))))
  /\ (isInteger desktopActiveTab.["id"] = false
      \/ isInteger mobileWindow_tab0.["id"] = false ->
      exists e, InvalidIdentifier e
        /\ mirrorDesktopWindow_created desktopWindow desktopActiveTab
             mobileWindow mobileWindow_tab0 w
           = Throw e w).
Proof.
  split.
  - intros d m. apply mirrorDesktopWindow_created_int.
  - intros Hid. eexists. split; [by left|].
    unfold mirrorDesktopWindow_created, bind.
    by rewrite (on_tabPairs_throw _ _ _ (addPair_non_integer _ _ _ Hid)).
Qed.

Lemma mirrorDesktopWindow_created_records_witness :
  mirrorDesktopWindow_created desktopWindow desktopTab mobileWindow mobileTab
    loaded
  = Return tt
      (set_mobileWindowId mobileWindow.["id"]
         (set_desktopWindowId desktopWindow.["id"]
            (set_tabPairs (after (AddPair (VInt 1) (VInt 2)) (tabPairs loaded))
               loaded))).
Proof.
  apply (proj1 (mirrorDesktopWindow_created_records loaded desktopWindow
                  desktopTab mobileWindow mobileTab) 1 2); reflexivity.
Defined.

(** X18: a session can be started again after it has ended: from any state
    of the page, when the session-starting callback has run with integer
    tab ids and the window it recorded as the mobile window is then
    removed, the store is empty and every variable has the value it had
    when the page was loaded; no call is made on the way. *)
Theorem session_start_then_close
    (w : background)
    (desktopWindow desktopActiveTab mobileWindow mobileWindow_tab0 : object)
    (d m mw : Z)
    (Hd : desktopActiveTab.["id"] = VInt d)
    (Hm : mobileWindow_tab0.["id"] = VInt m)
    (Hmw : mobileWindow.["id"] = VInt mw) :
  (mirrorDesktopWindow_created desktopWindow desktopActiveTab mobileWindow
     mobileWindow_tab0 ;;
   windows_onRemoved (VInt mw)) w
  = Return tt (set_issued (issued w) loaded).
Proof.
  unfold bind.
  rewrite (mirrorDesktopWindow_created_int w desktopWindow desktopActiveTab
             mobileWindow mobileWindow_tab0 d m Hd Hm).
  rewrite Hmw. unfold windows_onRemoved, bind, gets.
  cbn [mobileWindowId set_mobileWindowId].
  assert (strict_eq (VInt mw) (VInt mw) = true) as ->
    by (cbn; by rewrite bool_decide_eq_true_2).
  reflexivity.
Qed.

Lemma session_start_then_close_witness :
  (mirrorDesktopWindow_created desktopWindow desktopTab mobileWindow mobileTab ;;
   windows_onRemoved (VInt 20)) session
  = Return tt (set_issued (issued session) loaded).
Proof.
  apply (session_start_then_close session desktopWindow desktopTab mobileWindow
           mobileTab 1 2 20); reflexivity.
Defined.

(** X19: while no session is on (the store is empty and no window is
    tracked) the listeners do nothing for the integer ids the browser
    sends: a created, removed, updated or activated tab changes nothing and
    brings no call, and request headers are returned as they were. *)
Theorem idle_page_does_nothing (w : background)
    (Hstore : tabPairs w = constructor)
    (Hdesktop : desktopWindowId w = VUndefined)
    (Hmobile : mobileWindowId w = VUndefined) :
  (forall newUserTab,
      isInteger newUserTab.["windowId"] = true ->
      tabs_onCreated newUserTab w = Return tt w)
  /\ (forall x : Z, tabs_onRemoved (VInt x) w = Return tt w)
  /\ (forall (x : Z) changeInfo tab,
         tabs_onUpdated (VInt x) changeInfo tab w = Return tt w)
  /\ (forall (activeInfo : object),
         isInteger activeInfo.["tabId"] = true ->
         tabs_onActivated activeInfo w = Return tt w)
  /\ (forall page (x : Z) headers,
         webRequest_onBeforeSendHeaders page (VInt x) headers w
         = Return headers w).
Proof.
  assert (forall x : Z,
            getCorrespondingTab (VInt x) (tabPairs w)
            = Return (VBool false) (tabPairs w)) as Hnone.
  { intros x. rewrite Hstore, getCorrespondingTab_int. unfold constructor.
    cbn [_keyedByDesktop _keyedByMobile]. by rewrite !get_empty_int. }
  split; [|split; [|split; [|split]]].
  - intros newUserTab Hint. apply tabs_onCreated_ignored. right.
    rewrite Hdesktop, Hmobile.
    by destruct (newUserTab.["windowId"]).
  - intros x. by rewrite (tabs_onRemoved_int _ _ _ (Hnone x)).
  - intros x changeInfo tab.
    rewrite (tabs_onUpdated_int _ _ _ _ _ (Hnone x)). cbn [truthy].
    by rewrite andb_false_r.
  - intros activeInfo Hint.
    destruct (activeInfo.["tabId"]) as [| | |n| | | |] eqn:Hid; try discriminate.
    by rewrite (tabs_onActivated_int _ _ _ _ Hid (Hnone n)).
  - intros page x headers. unfold webRequest_onBeforeSendHeaders, bind.
    rewrite (on_tabPairs_read _ _ (VBool false)); [done|].
    rewrite contains_int, Hstore. unfold constructor.
    cbn [_keyedByDesktop _keyedByMobile]. by rewrite !get_empty_int.
Qed.

Lemma idle_page_does_nothing_witness :
  tabs_onCreated userTab loaded = Return tt loaded.
Proof.
  destruct (idle_page_does_nothing loaded eq_refl eq_refl eq_refl)
    as (Hcreated & _).
  apply Hcreated. reflexivity.
Defined.
